(** * Simulated IQ generator and run orchestrator: a shallow embedding

    The development follows [tools/simulated_iq_generator.py] and
    [tools/orchestrater.py].

    Numbers.  A Python float that is not an infinity or a NaN denotes a
    rational, so scalar parameters (durations, rates, frequencies, amplitudes)
    are values of [Q] and index computations ([np.ceil], [int]) are exact and
    executable.  Complex samples are pairs of reals; sample arithmetic is exact
    (the rounding performed by [astype(np.complex64)] is not represented).

    Library code.  [float], [repr] of a float, [hash] and the NumPy generator
    are library functions; they enter as the fields of the class [PyRuntime].

    Surroundings.  A run is the sequence of operating-system calls it makes
    and the way it ends.  The calls themselves are taken to succeed, except a
    child process, whose exit status is read from the world. *)

From Stdlib Require Import ZArith QArith Qround Reals Lra Lia.
From Stdlib Require Import String Ascii List Bool.
From stdpp Require Import base gmap strings pretty.
Import ListNotations.

Local Open Scope Z_scope.
Local Open Scope string_scope.
Local Open Scope list_scope.

(** ** Python built-ins used by both tools *)

Module Py.

(** [s.split(sep)] for a one-character separator: the result always has at
    least one field, and the empty string splits into one empty field. *)
Fixpoint split (sep : ascii) (s : string) : list string :=
  match s with
  | EmptyString => [EmptyString]
  | String c r =>
      if Ascii.eqb c sep then EmptyString :: split sep r
      else match split sep r with
           | h :: tl => String c h :: tl
           | [] => [String c EmptyString]
           end
  end.

(** [sep.join(parts)]. *)
Definition join (sep : string) (parts : list string) : string :=
  String.concat sep parts.

(** Truthiness of a [str]: only the empty string is false. *)
Definition truthy (s : string) : bool :=
  match s with EmptyString => false | _ => true end.

(** [s.startswith(p)] and [s.endswith(p)]. *)
Definition startswith (p s : string) : bool := String.prefix p s.

Fixpoint rev_string (acc s : string) : string :=
  match s with
  | EmptyString => acc
  | String c r => rev_string (String c acc) r
  end.

Definition endswith (p s : string) : bool :=
  String.prefix (rev_string EmptyString p) (rev_string EmptyString s).

(** [int(x)] on a float: truncation toward zero. *)
Definition int_of_float (x : Q) : Z := Z.quot (Qnum x) (Zpos (Qden x)).

(** [int(np.ceil(x))]. *)
Definition ceil (x : Q) : Z := Qceiling x.

(** Exceptions that the two tools can raise. *)
Inductive exn : Type :=
| ValueError (msg : string)
| KeyError (key : string)
| NotImplementedError (msg : string)
| CalledProcessError (cmd : list string).

(** A computation that either yields a value or raises. *)
Inductive result (A : Type) : Type :=
| Ok (a : A)
| Raise (e : exn).
Arguments Ok {A} a.
Arguments Raise {A} e.

Definition bind {A B} (m : result A) (k : A -> result B) : result B :=
  match m with
  | Ok a => k a
  | Raise e => Raise e
  end.

(** [d[key]] on a mapping whose entry may be absent. *)
Definition getitem {A} (key : string) (o : option A) : result A :=
  match o with
  | Some a => Ok a
  | None => Raise (KeyError key)
  end.

(** [d.get(key, dflt)]. *)
Definition get {A} (o : option A) (dflt : A) : A :=
  match o with
  | Some a => a
  | None => dflt
  end.

(** [x == y] where [x] may be [None]. *)
Definition option_eqb {A} (eqb : A -> A -> bool) (x y : option A) : bool :=
  match x, y with
  | Some a, Some b => eqb a b
  | None, None => true
  | _, _ => false
  end.

(** [os.path.join(a, b)] (POSIX). *)
Definition path_join (a b : string) : string :=
  if startswith "/" b then b
  else if negb (truthy a) || endswith "/" a then a +:+ b
  else a +:+ "/" +:+ b.

(** Split a path at its last slash: [rsplit_slash p = (head, tail)] with
    [head] ending in the last slash of [p] (empty when there is none). *)
Fixpoint rsplit_slash (p : string) : string * string :=
  match p with
  | EmptyString => (EmptyString, EmptyString)
  | String c r =>
      let (h, t) := rsplit_slash r in
      if Ascii.eqb c "/"%char then (String c h, t)
      else match h with
           | EmptyString => (EmptyString, String c t)
           | _ => (String c h, t)
           end
  end.

(** [head.rstrip('/')]. *)
Fixpoint rstrip_slash (s : string) : string :=
  match s with
  | EmptyString => EmptyString
  | String c r =>
      match rstrip_slash r with
      | EmptyString => if Ascii.eqb c "/"%char then EmptyString else String c EmptyString
      | r' => String c r'
      end
  end.

(** [os.path.dirname(p)]: the head, with trailing slashes removed unless it
    consists of slashes only. *)
Definition dirname (p : string) : string :=
  let h := fst (rsplit_slash p) in
  match rstrip_slash h with
  | EmptyString => h
  | h' => h'
  end.

(** [os.path.basename(p)]. *)
Definition basename (p : string) : string := snd (rsplit_slash p).

End Py.

(** ** Effects: what a tool does to its surroundings

    A run is described by the list of operating-system calls it makes, in
    order, and by how it ends.  [C] is the type of file contents. *)

Module OS.

Inductive event (C : Type) : Type :=
| Makedirs (path : string)                 (* os.makedirs(path, exist_ok=True) *)
| WriteFile (path : string) (content : C)  (* a file opened for writing and filled *)
| Spawn (cmd : list string)                (* subprocess.check_call(cmd) *)
| Print (msg : string).
Arguments Makedirs {C} path.
Arguments WriteFile {C} path content.
Arguments Spawn {C} cmd.
Arguments Print {C} msg.

(** A computation with a trace of calls and a result or an exception. *)
Definition io (C A : Type) : Type := (list (event C) * Py.result A)%type.

Definition ret {C A} (a : A) : io C A := ([], Py.Ok a).

Definition raise {C A} (e : Py.exn) : io C A := ([], Py.Raise e).

Definition emit {C} (e : event C) : io C unit := ([e], Py.Ok tt).

Definition lift {C A} (r : Py.result A) : io C A := ([], r).

Definition bind {C A B} (m : io C A) (k : A -> io C B) : io C B :=
  match m with
  | (tr, Py.Ok a) => let (tr', r) := k a in (tr ++ tr', r)
  | (tr, Py.Raise e) => (tr, Py.Raise e)
  end.

Definition is_write {C} (e : event C) : bool :=
  match e with WriteFile _ _ => true | _ => false end.

Definition is_spawn {C} (e : event C) : bool :=
  match e with Spawn _ => true | _ => false end.

Definition is_fs {C} (e : event C) : bool :=
  match e with Makedirs _ | WriteFile _ _ => true | _ => false end.

(** The files written by a trace, in order. *)
Definition writes {C} (tr : list (event C)) : list (string * C) :=
  flat_map (fun e => match e with WriteFile p c => [(p, c)] | _ => [] end) tr.

(** A file system: the directories that exist and the regular files with
    their contents. *)
Record fs (C : Type) : Type := mkfs { dirs : gset string; files : gmap string C }.
Arguments mkfs {C} dirs files.
Arguments dirs {C} f.
Arguments files {C} f.

Definition apply_event {C} (f : fs C) (e : event C) : fs C :=
  match e with
  | Makedirs p => mkfs ({[ p ]} ∪ dirs f) (files f)
  | WriteFile p c => mkfs (dirs f) (<[ p := c ]> (files f))
  | Spawn _ | Print _ => f
  end.

Definition apply_trace {C} (f : fs C) (tr : list (event C)) : fs C :=
  fold_left apply_event tr f.

End OS.

Notation "'do' x <- m ; k" := (OS.bind m (fun x => k))
  (at level 10, x name, m at level 100, k at level 200).
Notation "'run' m ; k" := (OS.bind m (fun _ => k))
  (at level 10, m at level 100, k at level 200).

(** ** Library functions taken as given *)

Class PyRuntime : Type := {
  (** [float(s)]; [None] stands for [ValueError]. *)
  py_float : string -> option Q;
  (** [repr] of a float, as used by [str] and f-strings. *)
  py_repr_float : Q -> string;
  (** [str.__hash__] and the hashes of other YAML scalars. *)
  py_hash : string -> Z;
  (** State of NumPy's global legacy generator. *)
  rng_state : Type;
  (** [np.random.seed(s)] for [0 <= s < 2**32]: the state depends on [s] only. *)
  np_random_seed : Z -> rng_state;
  (** One standard normal deviate and the next state. *)
  np_random_normal1 : rng_state -> R * rng_state
}.

(** ** The synthesis engine: [tools/simulated_iq_generator.py] *)

Module Generator.

(** *** Complex samples *)

Abbreviation complex := (R * R)%type.

Definition Czero : complex := (0%R, 0%R).

Definition Cadd (a b : complex) : complex :=
  ((fst a + fst b)%R, (snd a + snd b)%R).

Definition Cscale (k : R) (a : complex) : complex :=
  ((k * fst a)%R, (k * snd a)%R).

Definition Cdiv (a : complex) (m : R) : complex :=
  ((fst a / m)%R, (snd a / m)%R).

(** [np.abs] on a complex number. *)
Definition Cabs (a : complex) : R :=
  sqrt (fst a * fst a + snd a * snd a).

(** [np.exp(2j * np.pi * x)]. *)
Definition Cexp2pi (x : R) : complex :=
  (cos (2 * PI * x), sin (2 * PI * x)).

(** *** Arrays *)

(** [np.arange(n) / sr]: the sample instants. *)
Definition arange_div (n : Z) (sr : Q) : list Q :=
  map (fun k => (inject_Z k / sr)%Q) (seqZ 0 n).

(** [np.zeros(n, dtype=np.complex64)]: a negative dimension is an error. *)
Definition np_zeros (n : Z) : Py.result (list complex) :=
  if (n <? 0)%Z then Py.Raise (Py.ValueError "negative dimensions are not allowed")
  else Py.Ok (replicate (Z.to_nat n) Czero).

(** [a += b] on arrays of one length. *)
Definition vadd (a b : list complex) : list complex := zip_with Cadd a b.

(** A slice bound [i] on a sequence of length [len], as Python adjusts it:
    a negative bound counts from the end, then the bound is clamped. *)
Definition slice_bound (len i : Z) : nat :=
  Z.to_nat (Z.max 0 (Z.min len (if (i <? 0)%Z then (i + len)%Z else i))).

(** [l[a:b]]. *)
Definition slice {A} (a b : Z) (l : list A) : list A :=
  let len := Z.of_nat (length l) in
  let a' := slice_bound len a in
  let b' := slice_bound len b in
  firstn (b' - a')%nat (skipn a' l).

(** [l[a:b] = vals] where [vals] has the length of the slice. *)
Definition slice_assign {A} (a b : Z) (vals l : list A) : list A :=
  let len := Z.of_nat (length l) in
  let a' := slice_bound len a in
  let b' := slice_bound len b in
  firstn a' l ++ vals ++ skipn (Nat.max a' b') l.

(** *** Components of the signal *)

(** [mk_tone], lines 22-23. *)
Definition mk_tone (freq amp samplerate : Q) (t : list Q) : list complex :=
  map (fun tk => Cscale (Q2R amp) (Cexp2pi (Q2R freq * Q2R tk))) t.

(** *** The amplitude limiter, lines 88-91 *)

(** [np.any(iq)]: some sample is not zero. *)
Definition nonzero (c : complex) : bool :=
  if Req_dec_T (fst c) 0 then (if Req_dec_T (snd c) 0 then false else true)
  else true.

Definition np_any (iq : list complex) : bool := existsb nonzero iq.

(** [np.max] of a non-empty array (it raises on an empty one; the guard
    [np.any] keeps the empty case away). *)
Definition np_max (l : list R) : R :=
  match l with
  | [] => 0%R
  | x :: r => fold_left Rmax r x
  end.

Definition max_amp (iq : list complex) : R :=
  if np_any iq then np_max (map Cabs iq) else 1%R.

Definition limiter (iq : list complex) : list complex :=
  if Rlt_dec 1 (max_amp iq) then map (fun c => Cdiv c (max_amp iq)) iq
  else iq.

(** *** The raw artifact, lines 111-115 *)

(** [arr[start::2] = vals]. *)
Fixpoint assign_stride2 (start : nat) (vals arr : list R) : list R :=
  match vals with
  | [] => arr
  | v :: vs => assign_stride2 (start + 2) vs (<[ start := v ]> arr)
  end.

(** [np.empty] leaves the slots uninitialised; every slot is assigned below,
    so the initial content is immaterial and is taken to be zero. *)
Definition interleave (iq : list complex) : list R :=
  let iq_i := map fst iq in
  let iq_q := map snd iq in
  let interleaved := replicate (length iq_i + length iq_q) 0%R in
  let interleaved := assign_stride2 0 iq_i interleaved in
  assign_stride2 1 iq_q interleaved.

(** *** Command line, sidecar and artifacts *)

(** The parsed command line ([argparse] converts [--duration],
    [--samplerate], [--noise] with [float] and [--seed] with [int]). *)
Record args : Type := mkargs {
  duration : Q;
  samplerate : Q;
  tones : string;
  noise : Q;
  burst : string;
  out : string;
  seed : Z
}.

(** The metadata sidecar, lines 95-105. *)
Record meta : Type := mkmeta {
  generated_at : string;
  duration_s : Q;
  samplerate_hz : Q;
  meta_tones : list (Q * Q);
  noise_sigma : Q;
  burst_spec : string;
  meta_seed : Z;
  file : string;
  note : string
}.

Inductive content : Type :=
| NpyArray (iq : list complex)   (* np.save *)
| RawFloat32 (xs : list R)       (* ndarray.tofile of a float32 array *)
| Json (m : meta).               (* json.dump *)

Section WithRuntime.
Context `{PyRuntime}.

(** [np.random.normal(size=size)]: [size] deviates, drawn in order. *)
Fixpoint np_random_normal (size : nat) (g : rng_state) : list R * rng_state :=
  match size with
  | O => ([], g)
  | S k =>
      let (x, g1) := np_random_normal1 g in
      let (xs, g2) := np_random_normal k g1 in
      (x :: xs, g2)
  end.

(** [mk_noise], lines 25-26: the real parts are drawn first. *)
Definition mk_noise (sigma : Q) (size : nat) (g : rng_state)
  : list complex * rng_state :=
  let (re, g1) := np_random_normal size g in
  let (im, g2) := np_random_normal size g1 in
  (zip_with (fun x y => Cscale (Q2R sigma) (x, y)) re im, g2).

(** The waveform of line 36: [amp * np.exp(2j * np.pi * burst_rate * tk)]. *)
Definition burst_wave (amp burst_rate tk : Q) : complex :=
  Cscale (Q2R amp) (Cexp2pi (Q2R burst_rate * Q2R tk)).

(** [mk_burst], lines 28-39. *)
Definition mk_burst (t : list Q) (samplerate burst_start burst_dur burst_rate : Q)
    (tone_freq amp : Q) : list complex :=
  let start_idx := Py.int_of_float (burst_start * samplerate) in
  let dur_idx := Py.int_of_float (burst_dur * samplerate) in
  let len_t := Z.of_nat (length t) in
  let burst := replicate (length t) Czero in
  if (start_idx <? len_t)%Z then
    let end_idx := Z.min len_t (start_idx + dur_idx)%Z in
    let tt := slice start_idx end_idx t in
    if Qeq_bool tone_freq 0 then
      slice_assign start_idx end_idx (map (burst_wave amp burst_rate) tt) burst
    else
      slice_assign start_idx end_idx (mk_tone tone_freq amp samplerate tt) burst
  else burst.

(** [float(s)] as a computation. *)
Definition float (s : string) : Py.result Q :=
  match py_float s with
  | Some q => Py.Ok q
  | None => Py.Raise (Py.ValueError "could not convert string to float")
  end.

(** [parse_tones], lines 41-52. *)
Fixpoint parse_tone_fields (fields : list string) : Py.result (list (Q * Q)) :=
  match fields with
  | [] => Py.Ok []
  | s :: rest =>
      if negb (Py.truthy s) then parse_tone_fields rest
      else
        let parts := Py.split ":" s in
        Py.bind (float (nth 0 parts ""))
          (fun freq =>
             Py.bind (match parts with
                      | _ :: p1 :: _ => float p1
                      | _ => Py.Ok 1%Q
                      end)
               (fun amp =>
                  Py.bind (parse_tone_fields rest)
                    (fun out => Py.Ok ((freq, amp) :: out))))
  end.

Definition parse_tones (specs : string) : Py.result (list (Q * Q)) :=
  if negb (Py.truthy specs) then Py.Ok []
  else parse_tone_fields (Py.split "," specs).

(** What the process finds when it starts: the state of the global
    generator and the clock reading taken at line 96. *)
Record world : Type := mkworld {
  w_rng : rng_state;
  w_utcnow : string
}.

(** [np.random.seed(s)], line 65: replaces the generator state. *)
Definition seed_generator (g0 : rng_state) (s : Z) : Py.result rng_state :=
  if ((0 <=? s)%Z && (s <? 2 ^ 32)%Z)%bool then Py.Ok (np_random_seed s)
  else Py.Raise (Py.ValueError "Seed must be between 0 and 2**32 - 1").

(** Lines 72-73. *)
Definition add_tones (tones : list (Q * Q)) (sr : Q) (t : list Q)
    (iq : list complex) : list complex :=
  fold_left (fun acc fa => vadd acc (mk_tone (fst fa) (snd fa) sr t)) tones iq.

(** Lines 75-76. *)
Definition add_noise (sigma : Q) (n : Z) (g : rng_state) (iq : list complex)
  : list complex :=
  if (negb (Qeq_bool sigma 0) && negb (Qle_bool sigma 0))%bool
  then vadd iq (fst (mk_noise sigma (Z.to_nat n) g))
  else iq.

(** Lines 78-86. *)
Definition add_burst (burst : string) (sr : Q) (t : list Q) (iq : list complex)
  : OS.io content (list complex) :=
  if Py.truthy burst then
    let burst_parts := Py.split ":" burst in
    if (3 <=? length burst_parts)%nat then
      do burst_start <- OS.lift (float (nth 0 burst_parts ""));
      do burst_dur <- OS.lift (float (nth 1 burst_parts ""));
      do burst_rate <- OS.lift (float (nth 2 burst_parts ""));
      OS.ret (vadd iq (mk_burst t sr burst_start burst_dur burst_rate 0 1))
    else
      run OS.emit (OS.Print "Burst spec must be burst_start:burst_dur:burst_rate");
      OS.ret iq
  else OS.ret iq.

(** The accumulator before the limiter, lines 65-86, with the parsed tones. *)
Definition accumulate (a : args) (w : world)
  : OS.io content (list complex * list (Q * Q)) :=
  do g <- OS.lift (seed_generator (w_rng w) (seed a));
  let sr := samplerate a in
  let n := Py.ceil (duration a * sr) in
  let t := arange_div n sr in
  do iq <- OS.lift (np_zeros n);
  do tones <- OS.lift (parse_tones (tones a));
  let iq := add_tones tones sr t iq in
  let iq := add_noise (noise a) n g iq in
  do iq <- add_burst (burst a) sr t iq;
  OS.ret (iq, tones).

(** The sample sequence that is serialised, lines 65-91. *)
Definition synthesize (a : args) (w : world)
  : OS.io content (list complex * list (Q * Q)) :=
  do r <- accumulate a w;
  OS.ret (limiter (fst r), snd r).

(** [repr] of the sidecar's tone list, as printed at line 123. *)
Definition repr_tones (tones : list (Q * Q)) : string :=
  "[" +:+ Py.join ", "
           (map (fun fa => "{'freq_hz': " +:+ py_repr_float (fst fa)
                           +:+ ", 'amp': " +:+ py_repr_float (snd fa) +:+ "}")
                tones)
      +:+ "]".

(** [main], lines 54-124. *)
Definition main (a : args) (w : world) : OS.io content unit :=
  do r <- synthesize a w;
  let iq := fst r in
  let tones := snd r in
  let out := out a in
  run OS.emit (OS.Makedirs
                 (if Py.truthy (Py.dirname out) then Py.dirname out else "."));
  let meta := {|
    generated_at := w_utcnow w +:+ "Z";
    duration_s := duration a;
    samplerate_hz := samplerate a;
    meta_tones := tones;
    noise_sigma := noise a;
    burst_spec := burst a;
    meta_seed := seed a;
    file := Py.basename out;
    note := "Simulated IQ for safe, in-cage or offline analysis only. Do not transmit."
  |} in
  run (if Py.endswith ".npy" out then OS.emit (OS.WriteFile out (NpyArray iq))
       else OS.emit (OS.WriteFile out (RawFloat32 (interleave iq))));
  let meta_path := out +:+ ".meta.json" in
  run OS.emit (OS.WriteFile meta_path (Json meta));
  run OS.emit (OS.Print ("[+] Wrote " +:+ out +:+ " and metadata " +:+ meta_path));
  run OS.emit (OS.Print ("[+] Preview: tones=" +:+ repr_tones (meta_tones meta)
                         +:+ ", noise_sigma=" +:+ py_repr_float (noise_sigma meta)
                         +:+ ", burst=" +:+ burst_spec meta));
  OS.emit (OS.Print "[!] Reminder: this is simulated IQ data for contained lab use only").

(** *** Vocabulary for statements about a run *)

(** The superposition of the tones and the noise, lines 69-76, for the
    parsed tone list [tl]. *)
Definition tone_noise (a : args) (tl : list (Q * Q)) : list complex :=
  let sr := samplerate a in
  let n := Py.ceil (duration a * sr) in
  add_noise (noise a) n (np_random_seed (seed a))
    (add_tones tl sr (arange_div n sr) (replicate (Z.to_nat n) Czero)).

(** The seed is one that [np.random.seed] accepts. *)
Definition seed_ok (a : args) : Prop := (0 <= seed a < 2 ^ 32)%Z.

(** The [--burst] string has three fields or more and the first three are
    floats. *)
Definition burst_present (a : args) (bs bd br : Q) : Prop :=
  Py.truthy (burst a) = true
  /\ (3 <= length (Py.split ":" (burst a)))%nat
  /\ py_float (nth 0 (Py.split ":" (burst a)) "") = Some bs
  /\ py_float (nth 1 (Py.split ":" (burst a)) "") = Some bd
  /\ py_float (nth 2 (Py.split ":" (burst a)) "") = Some br.

(** The strings on the command line can be read: the tone list parses, and
    a burst string of three fields or more starts with three floats. *)
Definition parses (a : args) : Prop :=
  (exists tl, parse_tones (tones a) = Py.Ok tl)
  /\ (Py.truthy (burst a) = true ->
      (3 <= length (Py.split ":" (burst a)))%nat ->
      exists bs bd br, burst_present a bs bd br).

(** What [main] puts in the artifact, lines 107-116. *)
Definition artifact (out : string) (iq : list complex) : content :=
  if Py.endswith ".npy" out then NpyArray iq else RawFloat32 (interleave iq).

(** The sidecar record of lines 95-105. *)
Definition sidecar (a : args) (w : world) (tl : list (Q * Q)) : meta := {|
  generated_at := w_utcnow w +:+ "Z";
  duration_s := duration a;
  samplerate_hz := samplerate a;
  meta_tones := tl;
  noise_sigma := noise a;
  burst_spec := burst a;
  meta_seed := seed a;
  file := Py.basename (out a);
  note := "Simulated IQ for safe, in-cage or offline analysis only. Do not transmit."
|}.

(** The calls of lines 93-124, after a synthesis that gave [iq] and [tl]. *)
Definition epilogue (a : args) (w : world) (iq : list complex) (tl : list (Q * Q))
  : list (OS.event content) :=
  [ OS.Makedirs (if Py.truthy (Py.dirname (out a)) then Py.dirname (out a) else ".");
    OS.WriteFile (out a) (artifact (out a) iq);
    OS.WriteFile (out a +:+ ".meta.json") (Json (sidecar a w tl));
    OS.Print ("[+] Wrote " +:+ out a +:+ " and metadata " +:+ (out a +:+ ".meta.json"));
    OS.Print ("[+] Preview: tones=" +:+ repr_tones tl
              +:+ ", noise_sigma=" +:+ py_repr_float (noise a)
              +:+ ", burst=" +:+ burst a);
    OS.Print "[!] Reminder: this is simulated IQ data for contained lab use only" ].

(** The largest magnitude in a sequence (zero for the empty one). *)
Definition peak (iq : list complex) : R := fold_right Rmax 0%R (map Cabs iq).

End WithRuntime.

End Generator.

(** ** The run orchestrator: [tools/orchestrater.py] *)

Module Orchestrator.

Definition SIM_GEN : string := "tools/simulated_iq_generator.py".

(** *** The manifest, as [yaml.safe_load] returns it

    A mapping is a record of optional entries; a YAML number is an [int] or a
    [float]. *)

Inductive num : Type :=
| Int (z : Z)
| Float (q : Q).

Record tone_entry : Type := mktone {
  freq_hz : option num;
  amp : option num
}.

Record burst_entry : Type := mkburst {
  start_s : option num;
  burst_duration_s : option num;
  burst_rate_hz : option num
}.

Record stimulus : Type := mkstimulus {
  tones : option (list tone_entry);
  noise_sigma : option num;
  burst : option burst_entry;
  simulated_iq_file : option string
}.

Record capture_parameters : Type := mkcapture {
  duration_s : option num;
  samplerate_hz : option num;
  mode : option string
}.

Record manifest : Type := mkmanifest {
  experiment_id : option string;
  m_capture_parameters : option capture_parameters;
  m_stimulus : option stimulus;
  created_at : option string
}.

(** [run_metadata.json], lines 54-61. *)
Record run_metadata : Type := mkrunmeta {
  rm_manifest : manifest;
  run_at : string;
  rm_note : string
}.

(** What the process finds around it. *)
Record world : Type := mkworld {
  (** [datetime.utcnow().strftime("%Y%m%dT%H%M%SZ")] at line 70 *)
  w_stamp : string;
  (** [datetime.utcnow().isoformat()] at line 57 *)
  w_isotime : string;
  (** [os.getenv] *)
  w_getenv : string -> option string;
  (** exit status of a child process *)
  w_status : list string -> Z;
  (** [os.path.exists] after the generator has run *)
  w_exists : string -> bool
}.

(** How [main] returns when it does not raise. *)
Inductive exit : Type :=
| Rejected    (* the early return of line 78 *)
| Completed.  (* the end of [main] *)

(** [int(x)] on a YAML number. *)
Definition int (x : num) : Z :=
  match x with
  | Int z => z
  | Float q => Py.int_of_float q
  end.

(** The empty mapping [{}] used as a default. *)
Definition empty_stimulus : stimulus := mkstimulus None None None None.
Definition empty_burst : burst_entry := mkburst None None None.

(** Truthiness of a mapping: it has an entry. *)
Definition burst_truthy (b : burst_entry) : bool :=
  match start_s b, burst_duration_s b, burst_rate_hz b with
  | None, None, None => false
  | _, _, _ => true
  end.

Section WithRuntime.
Context `{PyRuntime}.

(** [str(x)], also inside an f-string. *)
Definition str (x : num) : string :=
  match x with
  | Int z => pretty z
  | Float q => py_repr_float q
  end.

(** [ensure_dir], lines 26-27. *)
Definition ensure_dir (path : string) : OS.io run_metadata unit :=
  OS.emit (OS.Makedirs path).

(** [subprocess.check_call(cmd)]. *)
Definition check_call (w : world) (cmd : list string) : OS.io run_metadata unit :=
  run OS.emit (OS.Spawn cmd);
  if (w_status w cmd =? 0)%Z then OS.ret tt
  else OS.raise (Py.CalledProcessError cmd).

(** The f-string of line 33 for a tone whose frequency entry is [f]. *)
Definition tone_token (f : num) (t : tone_entry) : string :=
  pretty (int f) +:+ ":" +:+ str (Py.get (amp t) (Float 1)).

(** One element of the generator expression of line 33. *)
Definition tone_arg (t : tone_entry) : Py.result string :=
  Py.bind (Py.getitem "freq_hz" (freq_hz t)) (fun f => Py.Ok (tone_token f t)).

Fixpoint tone_args (tones : list tone_entry) : Py.result (list string) :=
  match tones with
  | [] => Py.Ok []
  | t :: rest =>
      Py.bind (tone_arg t)
        (fun s => Py.bind (tone_args rest) (fun ss => Py.Ok (s :: ss)))
  end.

(** Line 33. *)
Definition tones_arg (tones : list tone_entry) : Py.result string :=
  Py.bind (tone_args tones) (fun ss => Py.Ok (Py.join "," ss)).

(** Lines 35-38. *)
Definition burst_arg (b : burst_entry) : option string :=
  if burst_truthy b then
    Some (str (Py.get (start_s b) (Int 0)) +:+ ":"
          +:+ str (Py.get (burst_duration_s b) (Float (5 # 100))) +:+ ":"
          +:+ str (Py.get (burst_rate_hz b) (Int 5000)))
  else None.

(** [run_simulated_generator], lines 29-52. *)
Definition run_simulated_generator (w : world) (m : manifest) (out_iq : string)
  : OS.io run_metadata string :=
  let st := Py.get (m_stimulus m) empty_stimulus in
  let tones := Py.get (tones st) [] in
  do tones_arg <- OS.lift (tones_arg tones);
  let noise := Py.get (noise_sigma st) (Float 0) in
  let b := Py.get (burst st) empty_burst in
  let burst := burst_arg b in
  do cp <- OS.lift (Py.getitem "capture_parameters" (m_capture_parameters m));
  do d <- OS.lift (Py.getitem "duration_s" (duration_s cp));
  do cp' <- OS.lift (Py.getitem "capture_parameters" (m_capture_parameters m));
  do sr <- OS.lift (Py.getitem "samplerate_hz" (samplerate_hz cp'));
  let cmd :=
    ["python3"; SIM_GEN;
     "--duration"; str d;
     "--samplerate"; str sr;
     "--tones"; tones_arg;
     "--noise"; str noise;
     "--out"; out_iq;
     "--seed"; pretty (Z.land (py_hash (Py.get (created_at m) "")) 4294967295)] in
  let cmd := match burst with
             | Some b => cmd ++ ["--burst"; b]
             | None => cmd
             end in
  run check_call w cmd;
  OS.ret out_iq.

(** [save_metadata], lines 54-61. *)
Definition save_metadata (w : world) (out_dir : string) (m : manifest)
    (note : string) : OS.io run_metadata unit :=
  let meta := {| rm_manifest := m; run_at := w_isotime w +:+ "Z"; rm_note := note |} in
  OS.emit (OS.WriteFile (Py.path_join out_dir "run_metadata.json") meta).

(** The run directory, lines 70-71. *)
Definition run_dir (w : world) (m : manifest) (outdir : string) : string :=
  let run_id := Py.get (experiment_id m) "run" +:+ "_" +:+ w_stamp w in
  Py.path_join outdir run_id.

Definition rejection_notice : string :=
  "[!] Manifest mode is not 'simulated'. Set ALLOW_REAL_CAPTURE=1 environment variable to proceed with real hardware captures.".

(** [main], lines 63-98, on the loaded manifest and the [--outdir] value. *)
Definition main (w : world) (m : manifest) (outdir : string)
  : OS.io run_metadata exit :=
  let out_dir := run_dir w m outdir in
  run ensure_dir out_dir;
  do cp <- OS.lift (Py.getitem "capture_parameters" (m_capture_parameters m));
  let mode_ := Py.get (mode cp) "simulated" in
  if (negb (String.eqb mode_ "simulated")
      && negb (String.eqb (Py.get (w_getenv w "ALLOW_REAL_CAPTURE") "0") "1"))%bool
  then
    run OS.emit (OS.Print rejection_notice);
    OS.ret Rejected
  else
    do st <- OS.lift (Py.getitem "stimulus" (m_stimulus m));
    let iq_path := Py.path_join out_dir (Py.get (simulated_iq_file st) "capture.iq") in
    do cp2 <- OS.lift (Py.getitem "capture_parameters" (m_capture_parameters m));
    do _r <- (if Py.option_eqb String.eqb (mode cp2) (Some "simulated") then
                run OS.emit (OS.Print ("[+] Running simulated generator to produce IQ -> " +:+ iq_path));
                run_simulated_generator w m iq_path
              else
                OS.raise (Py.NotImplementedError "Real SDR capture not implemented in this orchestrator. Use simulated mode or add your capture adapter."));
    let gen_meta := iq_path +:+ ".meta.json" in
    run (if w_exists w gen_meta then check_call w ["cp"; gen_meta; out_dir]
         else OS.ret tt);
    run save_metadata w out_dir m "Simulated run completed. No over-air transmissions performed.";
    run OS.emit (OS.Print ("[+] Run outputs saved in " +:+ out_dir));
    run OS.emit (OS.Print "[!] Reminder: this run used simulated IQ; do not transmit these files over the air outside of shielded, authorized environments.");
    OS.ret Completed.

End WithRuntime.

End Orchestrator.

(** ** A concrete runtime for worked examples

    Decimal literals are parsed exactly, floats print as exact decimals, and
    the generator is a silent one (every deviate is zero); the examples below
    that use it keep the noise term switched off or do not depend on the
    deviates. *)

Module Lab.

Definition digit_of (c : ascii) : option Z :=
  let n := nat_of_ascii c in
  if ((48 <=? n)%nat && (n <=? 57)%nat)%bool then Some (Z.of_nat (n - 48)) else None.

(** Read a run of digits: the accumulated value, how many digits were read,
    and what follows them. *)
Fixpoint digits (acc : Z) (cnt : nat) (s : string) : Z * nat * string :=
  match s with
  | EmptyString => (acc, cnt, s)
  | String c r =>
      match digit_of c with
      | Some d => digits (10 * acc + d)%Z (S cnt) r
      | None => (acc, cnt, s)
      end
  end.

Definition sign_of (s : string) : bool * string :=
  match s with
  | String "-"%char r => (true, r)
  | String "+"%char r => (false, r)
  | _ => (false, s)
  end.

(** The rational [v * 10 ^ e]. *)
Definition scale10 (v e : Z) : Q :=
  match e with
  | Zneg p => Qmake v (Pos.pow 10 p)
  | _ => inject_Z (v * 10 ^ e)
  end.

(** [float(s)] on [[sign] digits [. digits] [e [sign] digits]]. *)
Definition dec_float (s : string) : option Q :=
  let (neg, s1) := sign_of s in
  let '(v1, c1, s2) := digits 0 0 s1 in
  let '(v2, c2, s3) :=
    match s2 with
    | String "."%char r => digits v1 0 r
    | _ => (v1, 0%nat, s2)
    end in
  if (c1 + c2 =? 0)%nat then None
  else
    let v := if neg then (- v2)%Z else v2 in
    match s3 with
    | EmptyString => Some (scale10 v (- Z.of_nat c2))
    | String c r =>
        if (Ascii.eqb c "e" || Ascii.eqb c "E")%bool then
          let (eneg, r1) := sign_of r in
          match digits 0 0 r1 with
          | (_, O, _) => None
          | (e, _, EmptyString) =>
              Some (scale10 v ((if eneg then - e else e) - Z.of_nat c2))
          | _ => None
          end
        else None
    end.

(** Up to [fuel] decimal digits of [r / d], for [0 <= r < d]. *)
Fixpoint frac_digits (fuel : nat) (r d : Z) : string :=
  match fuel with
  | O => EmptyString
  | S k =>
      if (r =? 0)%Z then EmptyString
      else pretty ((10 * r) / d)%Z +:+ frac_digits k ((10 * r) mod d)%Z d
  end.

(** A float prints as sign, integer part, point and at least one digit. *)
Definition dec_repr (q : Q) : string :=
  let n := Z.abs (Qnum q) in
  let d := Zpos (Qden q) in
  let f := frac_digits 17 (n mod d)%Z d in
  (if (Qnum q <? 0)%Z then "-" else "") +:+ pretty (n / d)%Z +:+ "."
    +:+ (if Py.truthy f then f else "0").

Definition runtime : PyRuntime := {|
  py_float := dec_float;
  py_repr_float := dec_repr;
  py_hash := fun s => Z.of_nat (String.length s);
  rng_state := unit;
  np_random_seed := fun _ => tt;
  np_random_normal1 := fun g => (0%R, g)
|}.

(** The world of the examples. *)
Definition world0 : @Generator.world runtime :=
  @Generator.mkworld runtime tt "2025-01-01T00:00:00".

(** One second at 4 Hz, a tone of frequency 0 and amplitude -0.5, no noise,
    and a burst of rate 0 over the first half second. *)
Definition burst_run : Generator.args :=
  Generator.mkargs 1 4 "0:-0.5" 0 "0:0.5:0" "capture.iq" 42.

(** A duration of zero seconds at 4 Hz, nothing else. *)
Definition empty_run : Generator.args :=
  Generator.mkargs 0 4 "" 0 "" "capture.iq" 42.

(** A manifest that asks for a real capture, with one tone of 100000.7 Hz
    and no amplitude entry. *)
Definition real_manifest : Orchestrator.manifest :=
  Orchestrator.mkmanifest (Some "exp1")
    (Some (Orchestrator.mkcapture (Some (Orchestrator.Int 1))
             (Some (Orchestrator.Int 1000000)) (Some "real")))
    (Some (Orchestrator.mkstimulus
             (Some [Orchestrator.mktone
                      (Some (Orchestrator.Float (1000007 # 10))) None])
             None None None))
    (Some "2025-01-01").

(** The same manifest in simulated mode, with a burst entry. *)
Definition simulated_manifest : Orchestrator.manifest :=
  Orchestrator.mkmanifest (Some "exp1")
    (Some (Orchestrator.mkcapture (Some (Orchestrator.Int 1))
             (Some (Orchestrator.Int 1000000)) (Some "simulated")))
    (Some (Orchestrator.mkstimulus
             (Some [Orchestrator.mktone
                      (Some (Orchestrator.Float (1000007 # 10))) None])
             None
             (Some (Orchestrator.mkburst (Some (Orchestrator.Float (2 # 10)))
                      None None))
             None))
    (Some "2025-01-01").

(** A process environment without [ALLOW_REAL_CAPTURE], and one with it set
    to ["1"]. *)
Definition locked_world : Orchestrator.world :=
  Orchestrator.mkworld "20250101T000000Z" "2025-01-01T00:00:00"
    (fun _ => None) (fun _ => 0%Z) (fun _ => true).

Definition override_world : Orchestrator.world :=
  Orchestrator.mkworld "20250101T000000Z" "2025-01-01T00:00:00"
    (fun v => if String.eqb v "ALLOW_REAL_CAPTURE" then Some "1" else None)
    (fun _ => 0%Z) (fun _ => true).

End Lab.

(** ** Vocabulary for further statements about the engine *)

Module EngineTerms.
Import Generator.

Section WithRuntime.
Context `{PyRuntime}.

(** A non-empty comma field [s] of the tone string denotes the pair [fa]:
    the text before the first colon is the frequency, the text between the
    first and the second colon is the amplitude, and the amplitude is 1.0 when
    there is no colon. *)
Definition tone_field (s : string) (fa : Q * Q) : Prop :=
  py_float (nth 0 (Py.split ":" s) "") = Some (fst fa)
  /\ match Py.split ":" s with
     | _ :: p1 :: _ => py_float p1 = Some (snd fa)
     | _ => snd fa = 1%Q
     end.

End WithRuntime.

(** The command line [a] with another burst string, and with another seed. *)
Definition with_burst (b : string) (a : args) : args :=
  mkargs (duration a) (samplerate a) (tones a) (noise a) b (out a) (seed a).

Definition with_seed (s : Z) (a : args) : args :=
  mkargs (duration a) (samplerate a) (tones a) (noise a) (burst a) (out a) s.

End EngineTerms.

(** ** Vocabulary for further statements about the orchestrator *)

Module OrchestratorTerms.
Import Orchestrator.

(** The number that a YAML number denotes. *)
Definition num_value (x : num) : Q :=
  match x with
  | Int z => inject_Z z
  | Float q => q
  end.

(** The character [sep] does not occur in the string. *)
Fixpoint lacks (sep : ascii) (s : string) : bool :=
  match s with
  | EmptyString => true
  | String c r => negb (Ascii.eqb c sep) && lacks sep r
  end.

(** The string has no comma and no colon. *)
Fixpoint plain (s : string) : bool :=
  match s with
  | EmptyString => true
  | String c r => negb (Ascii.eqb c ",") && negb (Ascii.eqb c ":") && plain r
  end.

(** The keys whose absence stops a run. *)
Definition required_key (k : string) : Prop :=
  k = "capture_parameters" \/ k = "stimulus" \/ k = "freq_hz"
  \/ k = "duration_s" \/ k = "samplerate_hz".

Section WithRuntime.
Context `{PyRuntime}.

(** [float] reads the string [s], which has no separator in it, as the
    number [q]. *)
Definition reads_back (s : string) (q : Q) : Prop :=
  (exists q', py_float s = Some q' /\ (q' == q)%Q) /\ plain s = true.

(** Two tone pairs denote the same numbers. *)
Definition same_tone (p r : Q * Q) : Prop :=
  (fst p == fst r)%Q /\ (snd p == snd r)%Q.

(** What the engine reads in the token of a tone with frequency entry [f]. *)
Definition tone_read (f : num) (t : tone_entry) : Q * Q :=
  (inject_Z (int f), num_value (Py.get (amp t) (Float 1))).

(** [float] reads both fields of the token back. *)
Definition token_reads_back (f : num) (t : tone_entry) : Prop :=
  reads_back (pretty (int f)) (inject_Z (int f))
  /\ reads_back (str (Py.get (amp t) (Float 1)))
       (num_value (Py.get (amp t) (Float 1))).

(** The three numbers of a burst entry, with the defaults of line 38. *)
Definition burst_start (b : burst_entry) : num := Py.get (start_s b) (Int 0).
Definition burst_dur (b : burst_entry) : num :=
  Py.get (burst_duration_s b) (Float (5 # 100)).
Definition burst_rate (b : burst_entry) : num := Py.get (burst_rate_hz b) (Int 5000).

(** [cmd] is the command line that lines 31-49 build for the manifest [m]
    and the output path [out_iq]. *)
Definition generator_command (m : manifest) (out_iq : string)
    (cmd : list string) : Prop :=
  exists ta cp d sr,
    tones_arg (Py.get (tones (Py.get (m_stimulus m) empty_stimulus)) []) = Py.Ok ta
    /\ m_capture_parameters m = Some cp
    /\ duration_s cp = Some d
    /\ samplerate_hz cp = Some sr
    /\ cmd
       = ["python3"; SIM_GEN;
          "--duration"; str d;
          "--samplerate"; str sr;
          "--tones"; ta;
          "--noise"; str (Py.get (noise_sigma (Py.get (m_stimulus m) empty_stimulus))
                            (Float 0));
          "--out"; out_iq;
          "--seed"; pretty (Z.land (py_hash (Py.get (created_at m) "")) 4294967295)]
         ++ match burst_arg (Py.get (burst (Py.get (m_stimulus m) empty_stimulus))
                               empty_burst) with
            | Some b => ["--burst"; b]
            | None => []
            end.

(** The output path handed to the generator, line 81. *)
Definition iq_path (w : world) (m : manifest) (outdir : string) : string :=
  Py.path_join (run_dir w m outdir)
    (Py.get (simulated_iq_file (Py.get (m_stimulus m) empty_stimulus)) "capture.iq").

(** The record that [save_metadata] writes at the end of [main]. *)
Definition final_metadata (w : world) (m : manifest) : run_metadata :=
  mkrunmeta m (w_isotime w +:+ "Z")
    "Simulated run completed. No over-air transmissions performed.".

(** The calls that open every run, and the ways a run of [main] can go. *)
Definition running_notice (w : world) (m : manifest) (outdir : string) : string :=
  "[+] Running simulated generator to produce IQ -> " +:+ iq_path w m outdir.

Definition copy_command (w : world) (m : manifest) (outdir : string) : list string :=
  ["cp"; iq_path w m outdir +:+ ".meta.json"; run_dir w m outdir].

Definition closing_calls (w : world) (m : manifest) (outdir : string)
  : list (OS.event run_metadata) :=
  [ OS.WriteFile (Py.path_join (run_dir w m outdir) "run_metadata.json")
      (final_metadata w m);
    OS.Print ("[+] Run outputs saved in " +:+ run_dir w m outdir);
    OS.Print "[!] Reminder: this run used simulated IQ; do not transmit these files over the air outside of shielded, authorized environments." ].

Inductive outcome (w : world) (m : manifest) (outdir : string)
  : list (OS.event run_metadata) -> Py.result exit -> Prop :=
| NoCaptureParameters :
    m_capture_parameters m = None ->
    outcome w m outdir [OS.Makedirs (run_dir w m outdir)]
      (Py.Raise (Py.KeyError "capture_parameters"))
| GateRejects cp md :
    m_capture_parameters m = Some cp ->
    mode cp = Some md -> md <> "simulated" ->
    w_getenv w "ALLOW_REAL_CAPTURE" <> Some "1" ->
    outcome w m outdir
      [OS.Makedirs (run_dir w m outdir); OS.Print rejection_notice]
      (Py.Ok Rejected)
| NoStimulus cp :
    m_capture_parameters m = Some cp ->
    m_stimulus m = None ->
    outcome w m outdir [OS.Makedirs (run_dir w m outdir)]
      (Py.Raise (Py.KeyError "stimulus"))
| NotSimulated cp st msg :
    m_capture_parameters m = Some cp ->
    m_stimulus m = Some st ->
    mode cp <> Some "simulated" ->
    outcome w m outdir [OS.Makedirs (run_dir w m outdir)]
      (Py.Raise (Py.NotImplementedError msg))
| MissingKey cp st k :
    m_capture_parameters m = Some cp ->
    m_stimulus m = Some st ->
    mode cp = Some "simulated" ->
    required_key k ->
    outcome w m outdir
      [OS.Makedirs (run_dir w m outdir); OS.Print (running_notice w m outdir)]
      (Py.Raise (Py.KeyError k))
| GeneratorFails cp st cmd :
    m_capture_parameters m = Some cp ->
    m_stimulus m = Some st ->
    mode cp = Some "simulated" ->
    generator_command m (iq_path w m outdir) cmd ->
    w_status w cmd <> 0%Z ->
    outcome w m outdir
      [OS.Makedirs (run_dir w m outdir); OS.Print (running_notice w m outdir);
       OS.Spawn cmd]
      (Py.Raise (Py.CalledProcessError cmd))
| CopyFails cp st cmd :
    m_capture_parameters m = Some cp ->
    m_stimulus m = Some st ->
    mode cp = Some "simulated" ->
    generator_command m (iq_path w m outdir) cmd ->
    w_status w cmd = 0%Z ->
    w_exists w (iq_path w m outdir +:+ ".meta.json") = true ->
    w_status w (copy_command w m outdir) <> 0%Z ->
    outcome w m outdir
      [OS.Makedirs (run_dir w m outdir); OS.Print (running_notice w m outdir);
       OS.Spawn cmd; OS.Spawn (copy_command w m outdir)]
      (Py.Raise (Py.CalledProcessError (copy_command w m outdir)))
| Completes cp st cmd :
    m_capture_parameters m = Some cp ->
    m_stimulus m = Some st ->
    mode cp = Some "simulated" ->
    generator_command m (iq_path w m outdir) cmd ->
    w_status w cmd = 0%Z ->
    (w_exists w (iq_path w m outdir +:+ ".meta.json") = true ->
     w_status w (copy_command w m outdir) = 0%Z) ->
    outcome w m outdir
      ([OS.Makedirs (run_dir w m outdir); OS.Print (running_notice w m outdir);
        OS.Spawn cmd]
       ++ (if w_exists w (iq_path w m outdir +:+ ".meta.json")
           then [OS.Spawn (copy_command w m outdir)] else [])
       ++ closing_calls w m outdir)
      (Py.Ok Completed).

End WithRuntime.

End OrchestratorTerms.

(** ** More worlds and manifests for worked examples *)

Module LabCases.

(** A manifest with nothing in it. *)
Definition bare_manifest : Orchestrator.manifest :=
  Orchestrator.mkmanifest None None None None.

(** A manifest with a stimulus section and capture parameters that have no
    mode entry. *)
Definition modeless_manifest : Orchestrator.manifest :=
  Orchestrator.mkmanifest (Some "exp1")
    (Some (Orchestrator.mkcapture (Some (Orchestrator.Int 1))
             (Some (Orchestrator.Int 1000000)) None))
    (Some (Orchestrator.mkstimulus None None None None))
    None.

(** A world in which every child process fails. *)
Definition failing_world : Orchestrator.world :=
  Orchestrator.mkworld "20250101T000000Z" "2025-01-01T00:00:00"
    (fun _ => None) (fun _ => 1%Z) (fun _ => true).

(** The command line that [Lab.simulated_manifest] gives under ["runs"]. *)
Definition simulated_command : list string :=
  ["python3"; "tools/simulated_iq_generator.py";
   "--duration"; "1"; "--samplerate"; "1000000";
   "--tones"; "100000:1.0"; "--noise"; "0.0";
   "--out"; "runs/exp1_20250101T000000Z/capture.iq";
   "--seed"; "10"; "--burst"; "0.2:0.05:5000"].

(** A short burst string on an otherwise plain command line. *)
Definition short_burst_run : Generator.args :=
  Generator.mkargs 1 4 "0:-0.5" 0 "0.1:5" "capture.iq" 42.

(** One second at 4 Hz with the single tone 1:0.5, and with nothing at all. *)
Definition tone_run : Generator.args :=
  Generator.mkargs 1 4 "1:0.5" 0 "" "capture.iq" 42.

Definition silent_run : Generator.args :=
  Generator.mkargs 1 4 "" 0 "" "capture.iq" 42.

End LabCases.

(** ** The survey logger: [tools/rf_survey.py] *)

Module Survey.

Definition OUTPUT_DIR : string := "survey_logs".
Definition DEVICE_ID : string := "device-under-test-serial".
Definition FREQ_START_HZ : Q := inject_Z 1000000.
Definition FREQ_END_HZ : Q := inject_Z 6000000000.
Definition NUM_BINS : Z := 1024.
Definition SNAPSHOT_INTERVAL_SEC : Z := 10.
Definition NUM_SNAPSHOTS : nat := 6.

(** The JSON documents of lines 33-40 and 46-50. *)
Record payload : Type := mkpayload {
  timestamp : string;
  device_id : string;
  freq_start_hz : Q;
  freq_end_hz : Q;
  num_bins : Z;
  magnitudes_db : list R
}.

Record metadata : Type := mkmetadata {
  run_started : string;
  md_device_id : string;
  notes : string
}.

Inductive content : Type :=
| Snapshot (p : payload)
| RunMetadata (m : metadata).

Inductive event : Type :=
| Makedirs (path : string)
| WriteFile (path : string) (c : content)
| Print (msg : string)
| Sleep (seconds : Z).

(** The two clocks: the [k]-th reading of [datetime.utcnow().isoformat()]
    and the [k]-th reading of [time.time()]. *)
Record world : Type := mkworld {
  w_utcnow : nat -> string;
  w_time : nat -> Q
}.

(** How many readings of each clock have been taken. *)
Definition clocks : Type := (nat * nat)%type.

(** [np.linspace(start, stop, num)] with the end point included. *)
Definition np_linspace (start stop : Q) (num : Z) : list Q :=
  map (fun k => (start + inject_Z k * ((stop - start) / inject_Z (num - 1)))%Q)
    (seqZ 0 num).

(** [np.log10]. *)
Definition log10 (x : R) : R := (ln x / ln 10)%R.

(** Lines 29-30: the placeholder spectrum. *)
Definition freqs : list Q := np_linspace FREQ_START_HZ FREQ_END_HZ NUM_BINS.

Definition magnitude_db (f : Q) : R :=
  (-120 + 20 * log10 (Rabs (sin (2 * PI * Q2R f / 100000000)) + 1))%R.

Definition spectrum : list R := map magnitude_db freqs.

(** The file name of line 32. *)
Definition snapshot_path (index : nat) (t : Q) : string :=
  OUTPUT_DIR +:+ "/snapshot_" +:+ pretty (Z.of_nat index) +:+ "_"
    +:+ pretty (Py.int_of_float t) +:+ ".json".

(** [take_snapshot], lines 24-43. *)
Definition take_snapshot (w : world) (index : nat) (c : clocks)
  : list event * clocks :=
  let ts := w_utcnow w (fst c) +:+ "Z" in
  let fname := snapshot_path index (w_time w (snd c)) in
  let payload := {|
    timestamp := ts;
    device_id := DEVICE_ID;
    freq_start_hz := FREQ_START_HZ;
    freq_end_hz := FREQ_END_HZ;
    num_bins := NUM_BINS;
    magnitudes_db := spectrum
  |} in
  ([WriteFile fname (Snapshot payload); Print ("[+] Saved snapshot: " +:+ fname)],
   (S (fst c), S (snd c))).

(** The loop of lines 54-56 over the indices that are left. *)
Fixpoint snapshot_loop (w : world) (indices : list nat) (c : clocks)
  : list event * clocks :=
  match indices with
  | [] => ([], c)
  | i :: rest =>
      let (tr1, c1) := take_snapshot w i c in
      let (tr2, c2) := snapshot_loop w rest c1 in
      (tr1 ++ Sleep SNAPSHOT_INTERVAL_SEC :: tr2, c2)
  end.

(** The file name of line 51. *)
Definition metadata_path (t : Q) : string :=
  OUTPUT_DIR +:+ "/run_metadata_" +:+ pretty (Py.int_of_float t) +:+ ".json".

(** [main], lines 45-58. *)
Definition main (w : world) (c : clocks) : list event * clocks :=
  let metadata := {|
    run_started := w_utcnow w (fst c) +:+ "Z";
    md_device_id := DEVICE_ID;
    notes := "Local benign RF survey; do not use for transmission or remote activation"
  |} in
  let c0 := (S (fst c), S (snd c)) in
  let (tr, c1) := snapshot_loop w (seq 0 NUM_SNAPSHOTS) c0 in
  (WriteFile (metadata_path (w_time w (snd c))) (RunMetadata metadata)
     :: tr ++ [Print "[+] Survey complete. Remember: anonymize before publishing."],
   c1).

(** The script run as a program: line 22, then [main]. *)
Definition script (w : world) : list event :=
  Makedirs OUTPUT_DIR :: fst (main w (0%nat, 0%nat)).

(** The paths written by a trace, in order. *)
Definition written (tr : list event) : list string :=
  flat_map (fun e => match e with WriteFile p _ => [p] | _ => [] end) tr.

(** The seconds slept by a trace, in order. *)
Definition slept (tr : list event) : list Z :=
  flat_map (fun e => match e with Sleep s => [s] | _ => [] end) tr.

(** A clock that stands still. *)
Definition frozen : world := mkworld (fun _ => "2025-01-01T00:00:00") (fun _ => 0%Q).

End Survey.

(** ** Statements taken from the specification *)

Module Spec.
Import Generator.

(** De-interleaving a raw artifact into (I, Q) pairs. *)
Fixpoint deinterleave (xs : list R) : list complex :=
  match xs with
  | i :: q :: rest => (i, q) :: deinterleave rest
  | _ => []
  end.

Section WithRuntime.
Context `{PyRuntime}.

(** "Within a burst window, output samples equal the burst waveform only":
    for a run with burst fields [bs], [bd], [br], every output sample whose
    index lies in [[start_idx, start_idx + dur_idx)] is the burst waveform at
    that instant. *)
Definition burst_overwrites (a : args) (w : world) (bs bd br : Q) : Prop :=
  forall tr iq tl k tk,
    synthesize a w = (tr, Py.Ok (iq, tl)) ->
    arange_div (Py.ceil (duration a * samplerate a)) (samplerate a) !! k = Some tk ->
    (Py.int_of_float (bs * samplerate a) <= Z.of_nat k
     < Py.int_of_float (bs * samplerate a) + Py.int_of_float (bd * samplerate a))%Z ->
    iq !! k = Some (burst_wave 1 br tk).

(** "Fails with InvalidSpecification if duration or sample rate is
    non-positive": the run raises and has written nothing. *)
Definition invalid_rejected (a : args) (w : world) : Prop :=
  (duration a <= 0 \/ samplerate a <= 0)%Q ->
  exists tr e, main a w = (tr, Py.Raise e) /\ OS.writes tr = [].

(** The sidecar with its generation timestamp blanked. *)
Definition erase_timestamp (c : content) : content :=
  match c with
  | Json m =>
      Json (mkmeta "" (duration_s m) (samplerate_hz m) (meta_tones m)
              (noise_sigma m) (burst_spec m) (meta_seed m) (file m) (note m))
  | _ => c
  end.

Definition erase_event (e : OS.event content) : OS.event content :=
  match e with
  | OS.WriteFile p c => OS.WriteFile p (erase_timestamp c)
  | _ => e
  end.

End WithRuntime.

End Spec.

(** ** Checks of the built-ins on literals *)

Example split_two : Py.split ":" "0.2:0.05:5" = ["0.2"; "0.05"; "5"].
Proof. reflexivity. Qed.

Example split_empty : Py.split "," "" = [""].
Proof. reflexivity. Qed.

Example dirname_ex : Py.dirname "runs/x_1/capture.iq" = "runs/x_1".
Proof. reflexivity. Qed.

Example dirname_none : Py.dirname "capture.iq" = "".
Proof. reflexivity. Qed.

Example basename_ex : Py.basename "runs/x_1/capture.iq" = "capture.iq".
Proof. reflexivity. Qed.

Example endswith_ex : Py.endswith ".npy" "a/b.npy" = true.
Proof. reflexivity. Qed.

Example int_neg : Py.int_of_float (-27 # 10) = (-2)%Z.
Proof. reflexivity. Qed.

Example dec_float_half : Lab.dec_float "-0.5" = Some (-5 # 10).
Proof. reflexivity. Qed.

Example dec_float_exp : Lab.dec_float "2e6" = Some (inject_Z 2000000).
Proof. reflexivity. Qed.

Example dec_float_bad : Lab.dec_float "abc" = None.
Proof. reflexivity. Qed.

Example dec_repr_ex : Lab.dec_repr (8 # 10) = "0.8".
Proof. reflexivity. Qed.

Example dec_repr_one : Lab.dec_repr 1 = "1.0".
Proof. reflexivity. Qed.

(** ** The raw artifact *)

Section Interleave.
Import Generator.

Lemma assign_stride2_length vals : forall start arr,
  length (assign_stride2 start vals arr) = length arr.
Proof.
  induction vals as [|v vs IH]; intros start arr; simpl; [reflexivity|].
  rewrite IH. apply length_insert.
Qed.

Lemma assign_stride2_miss vals : forall start arr j,
  (forall k, (k < length vals)%nat -> j <> (start + 2 * k)%nat) ->
  assign_stride2 start vals arr !! j = arr !! j.
Proof.
  induction vals as [|v vs IH]; intros start arr j Hj;
    cbn [assign_stride2 length] in *; [reflexivity|].
  rewrite IH.
  - apply list_lookup_insert_ne. intros ->. apply (Hj 0%nat); lia.
  - intros k Hk ->. apply (Hj (S k)); lia.
Qed.

Lemma assign_stride2_hit vals : forall start arr k,
  (start + 2 * k < length arr)%nat ->
  (k < length vals)%nat ->
  assign_stride2 start vals arr !! (start + 2 * k)%nat = vals !! k.
Proof.
  induction vals as [|v vs IH]; intros start arr k Hlen Hk;
    cbn [assign_stride2 length] in *; [lia|].
  destruct k as [|k].
  - rewrite assign_stride2_miss by (intros; lia).
    replace (start + 2 * 0)%nat with start by lia.
    apply list_lookup_insert_eq. lia.
  - replace (start + 2 * S k)%nat with ((start + 2) + 2 * k)%nat by lia.
    rewrite IH; [reflexivity| |lia].
    rewrite length_insert. lia.
Qed.

Lemma interleave_length iq : length (interleave iq) = (2 * length iq)%nat.
Proof.
  unfold interleave. rewrite !assign_stride2_length, length_replicate, !length_map. lia.
Qed.

Lemma interleave_even iq k :
  interleave iq !! (2 * k)%nat = fst <$> iq !! k.
Proof.
  unfold interleave.
  destruct (decide (k < length iq)%nat) as [Hk|Hk].
  - rewrite assign_stride2_miss by (intros; lia).
    rewrite (assign_stride2_hit _ 0 _ k).
    + apply list_lookup_fmap.
    + rewrite length_replicate, !length_map. lia.
    + rewrite length_map. lia.
  - rewrite (lookup_ge_None_2 iq k) by lia. simpl.
    apply lookup_ge_None_2.
    rewrite !assign_stride2_length, length_replicate, !length_map. lia.
Qed.

Lemma interleave_odd iq k :
  interleave iq !! (2 * k + 1)%nat = snd <$> iq !! k.
Proof.
  unfold interleave.
  destruct (decide (k < length iq)%nat) as [Hk|Hk].
  - replace (2 * k + 1)%nat with (1 + 2 * k)%nat by lia.
    rewrite (assign_stride2_hit _ 1 _ k).
    + apply list_lookup_fmap.
    + rewrite assign_stride2_length, length_replicate, !length_map. lia.
    + rewrite length_map. lia.
  - rewrite (lookup_ge_None_2 iq k) by lia. simpl.
    apply lookup_ge_None_2.
    rewrite !assign_stride2_length, length_replicate, !length_map. lia.
Qed.

Lemma deinterleave_lookup : forall xs k,
  Spec.deinterleave xs !! k =
    match xs !! (2 * k)%nat, xs !! (2 * k + 1)%nat with
    | Some i, Some q => Some (i, q)
    | _, _ => None
    end.
Proof.
  fix IH 1. intros [|i [|q rest]] k.
  - reflexivity.
  - destruct k as [|k]; simpl; [reflexivity|].
    replace (k + S (k + 0))%nat with (S (2 * k)) by lia. reflexivity.
  - destruct k as [|k]; [reflexivity|].
    change (Spec.deinterleave (i :: q :: rest) !! S k)
      with (Spec.deinterleave rest !! k).
    rewrite IH.
    replace (2 * S k)%nat with (S (S (2 * k))) by lia.
    replace (S (S (2 * k)) + 1)%nat with (S (S (2 * k + 1))) by lia.
    reflexivity.
Qed.


End Interleave.

(** ** Shapes of the arrays *)

Section Arrays.
Import Generator.

Lemma arange_div_length n sr : length (arange_div n sr) = Z.to_nat n.
Proof. unfold arange_div. rewrite length_map. apply length_seqZ. Qed.

Lemma arange_div_lookup n sr k :
  (k < Z.to_nat n)%nat ->
  arange_div n sr !! k = Some (inject_Z (Z.of_nat k) / sr)%Q.
Proof.
  intros Hk. unfold arange_div.
  change (map ?f ?l) with (f <$> l).
  rewrite list_lookup_fmap, lookup_seqZ_lt by lia. reflexivity.
Qed.

Lemma vadd_length a b : length b = length a -> length (vadd a b) = length a.
Proof. intros Hb. unfold vadd. rewrite length_zip_with. lia. Qed.

Lemma vadd_lookup a b k x y :
  a !! k = Some x -> b !! k = Some y -> vadd a b !! k = Some (Cadd x y).
Proof.
  intros Ha Hb. unfold vadd. rewrite lookup_zip_with, Ha, Hb. reflexivity.
Qed.

Lemma vadd_nil b : vadd [] b = [].
Proof. reflexivity. Qed.

Lemma mk_tone_length freq amp sr t : length (mk_tone freq amp sr t) = length t.
Proof. unfold mk_tone. apply length_map. Qed.

Lemma slice_bound_le len i : (0 <= len)%Z -> (slice_bound len i <= Z.to_nat len)%nat.
Proof. intros Hlen. unfold slice_bound. destruct (i <? 0)%Z; lia. Qed.

Lemma slice_bound_id len i :
  (0 <= i <= len)%Z -> slice_bound len i = Z.to_nat i.
Proof.
  intros Hi. unfold slice_bound.
  destruct (Z.ltb_spec i 0); [lia|]. lia.
Qed.

Lemma slice_length {A} a b (l : list A) :
  length (slice a b l)
  = (slice_bound (Z.of_nat (length l)) b - slice_bound (Z.of_nat (length l)) a)%nat.
Proof.
  unfold slice. rewrite length_take, length_drop.
  pose proof (slice_bound_le (Z.of_nat (length l)) a).
  pose proof (slice_bound_le (Z.of_nat (length l)) b).
  lia.
Qed.

Lemma slice_lookup {A} a b (l : list A) j :
  (slice_bound (Z.of_nat (length l)) a + j < slice_bound (Z.of_nat (length l)) b)%nat ->
  slice a b l !! j = l !! (slice_bound (Z.of_nat (length l)) a + j)%nat.
Proof.
  intros Hj. unfold slice.
  rewrite lookup_take_lt by lia. apply lookup_drop.
Qed.

Lemma slice_assign_length {A} a b (vals l : list A) :
  length vals
  = (slice_bound (Z.of_nat (length l)) b - slice_bound (Z.of_nat (length l)) a)%nat ->
  length (slice_assign a b vals l) = length l.
Proof.
  intros Hv. unfold slice_assign.
  rewrite !length_app, length_take, length_drop, Hv.
  pose proof (slice_bound_le (Z.of_nat (length l)) a).
  pose proof (slice_bound_le (Z.of_nat (length l)) b).
  lia.
Qed.

(** Reading an array after a slice assignment: inside the slice the new
    values, elsewhere the old ones. *)
Lemma slice_assign_lookup {A} a b (vals l : list A) k :
  length vals
  = (slice_bound (Z.of_nat (length l)) b - slice_bound (Z.of_nat (length l)) a)%nat ->
  slice_assign a b vals l !! k
  = if decide (slice_bound (Z.of_nat (length l)) a <= k
               < slice_bound (Z.of_nat (length l)) b)%nat
    then vals !! (k - slice_bound (Z.of_nat (length l)) a)%nat
    else l !! k.
Proof.
  intros Hv. unfold slice_assign.
  set (a' := slice_bound _ a) in *. set (b' := slice_bound _ b) in *.
  assert (Ha : (a' <= length l)%nat).
  { pose proof (slice_bound_le (Z.of_nat (length l)) a). subst a'. lia. }
  assert (Hb : (b' <= length l)%nat).
  { pose proof (slice_bound_le (Z.of_nat (length l)) b). subst b'. lia. }
  destruct (decide (a' <= k < b')%nat) as [Hin|Hout].
  - rewrite lookup_app_r by (rewrite length_take; lia).
    rewrite length_take, Nat.min_l by lia.
    apply lookup_app_l. lia.
  - destruct (decide (k < a')%nat) as [Hlt|Hge].
    + rewrite lookup_app_l by (rewrite length_take; lia).
      apply lookup_take_lt. lia.
    + rewrite lookup_app_r by (rewrite length_take; lia).
      rewrite length_take, Nat.min_l by lia.
      rewrite lookup_app_r by lia.
      rewrite lookup_drop. f_equal. lia.
Qed.

End Arrays.

(** ** The burst array *)

Section Burst.
Import Generator.

Lemma mk_burst_length t sr bs bd br tf amp :
  length (mk_burst t sr bs bd br tf amp) = length t.
Proof.
  unfold mk_burst.
  destruct (_ <? _)%Z; [|apply length_replicate].
  destruct (Qeq_bool tf 0).
  - rewrite slice_assign_length; rewrite length_replicate; [reflexivity|].
    rewrite length_map. apply slice_length.
  - rewrite slice_assign_length; rewrite length_replicate; [reflexivity|].
    rewrite mk_tone_length. apply slice_length.
Qed.

(** Entry [k] of the burst array, in terms of the slice that the code
    takes. *)
Lemma mk_burst_lookup t sr bs bd br amp k tk :
  t !! k = Some tk ->
  let len := Z.of_nat (length t) in
  let start_idx := Py.int_of_float (bs * sr) in
  let end_idx := Z.min len (start_idx + Py.int_of_float (bd * sr)) in
  mk_burst t sr bs bd br 0 amp !! k
  = Some (if decide ((start_idx < len)%Z
                     /\ (slice_bound len start_idx <= k < slice_bound len end_idx)%nat)
          then burst_wave amp br tk else Czero).
Proof.
  intros Hk len start_idx end_idx.
  assert (Hlt : (k < length t)%nat) by (apply lookup_lt_is_Some; eauto).
  unfold mk_burst. fold len. fold start_idx. fold end_idx.
  change (Qeq_bool 0 0) with true. cbv iota.
  destruct (Z.ltb_spec start_idx len) as [Hs|Hs].
  - rewrite slice_assign_lookup; rewrite length_replicate; fold len.
    2:{ rewrite length_map. apply slice_length. }
    destruct (decide (slice_bound len start_idx <= k < slice_bound len end_idx)%nat)
      as [Hin|Hout].
    + rewrite decide_True by tauto.
      change (map ?f ?l) with (f <$> l).
      rewrite list_lookup_fmap, slice_lookup by (fold len; lia).
      fold len. replace (_ + (k - _))%nat with k by lia.
      rewrite Hk. reflexivity.
    + rewrite decide_False by tauto.
      apply lookup_replicate_2; assumption.
  - rewrite decide_False by lia.
    apply lookup_replicate_2; assumption.
Qed.

(** With a start and a duration that are not negative, the slice is the
    window [[start_idx, start_idx + dur_idx)] cut at the end of the array. *)
Lemma mk_burst_window t sr bs bd br amp k tk :
  t !! k = Some tk ->
  let start_idx := Py.int_of_float (bs * sr) in
  let dur_idx := Py.int_of_float (bd * sr) in
  (0 <= start_idx)%Z -> (0 <= dur_idx)%Z ->
  mk_burst t sr bs bd br 0 amp !! k
  = Some (if decide (start_idx <= Z.of_nat k < start_idx + dur_idx)%Z
          then burst_wave amp br tk else Czero).
Proof.
  intros Hk start_idx dur_idx Hs Hd.
  assert (Hlt : (k < length t)%nat) by (apply lookup_lt_is_Some; eauto).
  rewrite (mk_burst_lookup _ _ _ _ _ _ _ _ Hk).
  fold start_idx. fold dur_idx. f_equal.
  set (len := Z.of_nat (length t)).
  destruct (Z.lt_ge_cases start_idx len) as [Hsl|Hsl].
  - rewrite (slice_bound_id len start_idx) by lia.
    rewrite (slice_bound_id len (Z.min len (start_idx + dur_idx))) by lia.
    destruct (decide (start_idx <= Z.of_nat k < start_idx + dur_idx)%Z).
    + rewrite decide_True by lia. reflexivity.
    + rewrite decide_False by lia. reflexivity.
  - rewrite decide_False by lia. rewrite decide_False by lia. reflexivity.
Qed.

Lemma Q2R_zero : Q2R 0 = 0%R.
Proof. unfold Q2R. simpl. lra. Qed.

Lemma Q2R_one : Q2R 1 = 1%R.
Proof. unfold Q2R. simpl. lra. Qed.

(** At rate zero the burst waveform is the constant [amp]. *)
Lemma burst_wave_rate0 amp tk : burst_wave amp 0 tk = (Q2R amp, 0%R).
Proof.
  unfold burst_wave, Cexp2pi, Cscale. simpl fst. simpl snd.
  rewrite Q2R_zero, Rmult_0_l, Rmult_0_r, cos_0, sin_0.
  f_equal; lra.
Qed.

(** C8, at the failing input.  Eight samples at 8 Hz and a burst at rate 0.
    A burst that starts at -0.25 s and lasts 0.125 s has the window [[-2, -1)],
    which has no index in common with the array, yet sample 6 carries the burst
    waveform: the slices [t[-2:-1]] and [burst[-2:-1]] count from the end of the
    array.  A burst that starts at -0.25 s and lasts 0.5 s has the window
    [[-2, 2)], whose part inside the array is [[0, 2)], yet sample 0 carries
    nothing: the slice [t[-2:2]] is empty. *)
Theorem burst_negative_start_wraps :
  Py.int_of_float ((-1 # 4) * 8) = (-2)%Z
  /\ Py.int_of_float ((1 # 8) * 8) = 1%Z
  /\ Py.int_of_float ((1 # 2) * 8) = 4%Z
  /\ length (arange_div 8 8) = 8%nat
  /\ mk_burst (arange_div 8 8) 8 (-1 # 4) (1 # 8) 0 0 1 !! 6%nat
     = Some (1%R, 0%R)
  /\ mk_burst (arange_div 8 8) 8 (-1 # 4) (1 # 2) 0 0 1 !! 0%nat
     = Some Czero.
Proof.
  do 4 (split; [reflexivity|]). split.
  - rewrite (mk_burst_lookup _ _ _ _ _ _ 6 (inject_Z 6 / 8)%Q) by reflexivity.
    rewrite decide_True.
    + rewrite burst_wave_rate0, Q2R_one. reflexivity.
    + vm_compute. split; [reflexivity|]. split; lia.
  - rewrite (mk_burst_lookup _ _ _ _ _ _ 0 (inject_Z 0 / 8)%Q) by reflexivity.
    rewrite decide_False; [reflexivity|].
    vm_compute. intros [_ [Hle _]]. lia.
Qed.

End Burst.

(** ** The accumulator *)

Section Accumulator.
Import Generator.
Context `{PyRuntime}.

Lemma seed_generator_ok g0 s :
  (0 <= s < 2 ^ 32)%Z -> seed_generator g0 s = Py.Ok (np_random_seed s).
Proof.
  intros Hs. unfold seed_generator.
  destruct (Z.leb_spec 0 s); [|lia].
  destruct (Z.ltb_spec s (2 ^ 32)); [reflexivity|lia].
Qed.

Lemma seed_generator_indep g0 g1 s : seed_generator g0 s = seed_generator g1 s.
Proof. reflexivity. Qed.

Lemma np_random_normal_length size : forall g,
  length (fst (np_random_normal size g)) = size.
Proof.
  induction size as [|k IH]; intros g; simpl; [reflexivity|].
  destruct (np_random_normal1 g) as [x g1].
  specialize (IH g1). destruct (np_random_normal k g1) as [xs g2].
  simpl in *. congruence.
Qed.

Lemma mk_noise_length sigma size g : length (fst (mk_noise sigma size g)) = size.
Proof.
  unfold mk_noise.
  pose proof (np_random_normal_length size g) as H1.
  destruct (np_random_normal size g) as [re g1].
  pose proof (np_random_normal_length size g1) as H2.
  destruct (np_random_normal size g1) as [im g2].
  simpl in *. rewrite length_zip_with. lia.
Qed.

Lemma add_tones_length tl sr t : forall iq,
  length iq = length t -> length (add_tones tl sr t iq) = length t.
Proof.
  unfold add_tones.
  induction tl as [|[f am] tl IH]; intros iq Hiq; simpl; [assumption|].
  apply IH. rewrite vadd_length; [assumption|].
  rewrite mk_tone_length. congruence.
Qed.

Lemma add_noise_length sigma n g iq :
  length iq = Z.to_nat n -> length (add_noise sigma n g iq) = Z.to_nat n.
Proof.
  intros Hiq. unfold add_noise.
  destruct (_ && _)%bool; [|assumption].
  rewrite vadd_length; [assumption|].
  rewrite mk_noise_length. congruence.
Qed.

Lemma tone_noise_length a tl :
  length (tone_noise a tl) = Z.to_nat (Py.ceil (duration a * samplerate a)).
Proof.
  unfold tone_noise. apply add_noise_length.
  rewrite add_tones_length; rewrite arange_div_length; [reflexivity|].
  apply length_replicate.
Qed.

Lemma add_burst_absent sr t iq : add_burst "" sr t iq = ([], Py.Ok iq).
Proof. reflexivity. Qed.

Lemma add_burst_present a bs bd br sr t iq :
  burst_present a bs bd br ->
  add_burst (burst a) sr t iq
  = ([], Py.Ok (vadd iq (mk_burst t sr bs bd br 0 1))).
Proof.
  intros (Ht & Hn & H0 & H1 & H2). unfold add_burst.
  rewrite Ht. apply Nat.leb_le in Hn. rewrite Hn.
  unfold float. rewrite H0, H1, H2. reflexivity.
Qed.

Lemma add_burst_short b sr t iq :
  Py.truthy b = true ->
  (length (Py.split ":" b) < 3)%nat ->
  add_burst b sr t iq
  = ([OS.Print "Burst spec must be burst_start:burst_dur:burst_rate"], Py.Ok iq).
Proof.
  intros Ht Hn. unfold add_burst. rewrite Ht.
  apply Nat.leb_gt in Hn. rewrite Hn. reflexivity.
Qed.

(** Whatever the burst string, a burst step that succeeds keeps the length. *)
Lemma add_burst_length b sr t iq tr iq' :
  length iq = length t ->
  add_burst b sr t iq = (tr, Py.Ok iq') -> length iq' = length t.
Proof.
  intros Hlen. unfold add_burst, float.
  destruct (Py.truthy b); [|intros [= _ <-]; assumption].
  destruct (3 <=? _)%nat; [|intros [= _ <-]; assumption].
  destruct (py_float _); [|discriminate].
  destruct (py_float _); [|discriminate].
  destruct (py_float _); [|discriminate].
  intros [= _ <-]. rewrite vadd_length; [assumption|].
  rewrite mk_burst_length. congruence.
Qed.

(** The burst step succeeds when the strings can be read. *)
Lemma add_burst_total a sr t iq :
  parses a -> exists tr iq', add_burst (burst a) sr t iq = (tr, Py.Ok iq').
Proof.
  intros [_ Hb].
  destruct (Py.truthy (burst a)) eqn:Ht.
  - destruct (le_lt_dec 3 (length (Py.split ":" (burst a)))) as [Hn|Hn].
    + destruct (Hb eq_refl Hn) as (bs & bd & br & Hp).
      rewrite (add_burst_present a bs bd br) by assumption. eauto.
    + rewrite add_burst_short by assumption. eauto.
  - unfold add_burst. rewrite Ht. eauto.
Qed.

(** The accumulator of a run whose strings can be read. *)
Lemma accumulate_eq a w tl :
  seed_ok a ->
  (0 <= Py.ceil (duration a * samplerate a))%Z ->
  parse_tones (tones a) = Py.Ok tl ->
  accumulate a w
  = OS.bind (add_burst (burst a) (samplerate a)
               (arange_div (Py.ceil (duration a * samplerate a)) (samplerate a))
               (tone_noise a tl))
      (fun iq => OS.ret (iq, tl)).
Proof.
  intros Hs Hn Ht. unfold accumulate.
  rewrite (seed_generator_ok _ _ Hs).
  unfold np_zeros. destruct (Z.ltb_spec (Py.ceil (duration a * samplerate a)) 0); [lia|].
  rewrite Ht. unfold tone_noise. cbn [OS.lift OS.bind app].
  destruct (add_burst _ _ _ _) as [tr [iq|e]]; reflexivity.
Qed.

(** A run with a negative sample count stops at the allocation. *)
Lemma accumulate_negative a w :
  (Py.ceil (duration a * samplerate a) < 0)%Z ->
  exists msg, accumulate a w = ([], Py.Raise (Py.ValueError msg)).
Proof.
  intros Hn. unfold accumulate, seed_generator.
  destruct (_ && _)%bool; [|eexists; reflexivity].
  unfold np_zeros. destruct (Z.ltb_spec (Py.ceil (duration a * samplerate a)) 0); [|lia].
  eexists; reflexivity.
Qed.

(** The accumulator of a successful run has the length of the time axis. *)
Lemma accumulate_length a w tr acc tl :
  accumulate a w = (tr, Py.Ok (acc, tl)) ->
  (0 <= Py.ceil (duration a * samplerate a))%Z
  /\ length acc = Z.to_nat (Py.ceil (duration a * samplerate a)).
Proof.
  unfold accumulate, seed_generator.
  destruct (_ && _)%bool; [|discriminate].
  unfold np_zeros.
  destruct (Z.ltb_spec (Py.ceil (duration a * samplerate a)) 0) as [Hn|Hn];
    [discriminate|].
  destruct (parse_tones (tones a)) as [tl'|e]; [|discriminate].
  cbn [OS.lift OS.bind app].
  destruct (add_burst _ _ _ _) as [tr' [iq'|e]] eqn:Hb; [|discriminate].
  intros [= _ <- _]. split; [assumption|].
  apply add_burst_length in Hb.
  - rewrite Hb. apply arange_div_length.
  - rewrite arange_div_length. apply add_noise_length.
    rewrite add_tones_length; rewrite arange_div_length; [reflexivity|].
    apply length_replicate.
Qed.

Lemma accumulate_total a w :
  seed_ok a ->
  (0 <= Py.ceil (duration a * samplerate a))%Z ->
  parses a ->
  exists tr acc tl, accumulate a w = (tr, Py.Ok (acc, tl)).
Proof.
  intros Hs Hn Hp. destruct (proj1 Hp) as [tl Htl].
  rewrite (accumulate_eq a w tl) by assumption.
  destruct (add_burst_total a (samplerate a)
              (arange_div (Py.ceil (duration a * samplerate a)) (samplerate a))
              (tone_noise a tl) Hp) as (tr & iq' & ->).
  eexists _, _, _. reflexivity.
Qed.

Lemma synthesize_eq a w tr acc tl :
  accumulate a w = (tr, Py.Ok (acc, tl)) ->
  synthesize a w = (tr, Py.Ok (limiter acc, tl)).
Proof.
  intros Ha. unfold synthesize. rewrite Ha. cbn [OS.bind OS.ret fst snd].
  rewrite app_nil_r. reflexivity.
Qed.

Lemma synthesize_inv a w tr iq tl :
  synthesize a w = (tr, Py.Ok (iq, tl)) ->
  exists acc, accumulate a w = (tr, Py.Ok (acc, tl)) /\ iq = limiter acc.
Proof.
  unfold synthesize.
  destruct (accumulate a w) as [tr' [[acc tl']|e]]; [|discriminate].
  cbn [OS.bind OS.ret fst snd]. rewrite app_nil_r.
  intros [= <- <- <-]. eauto.
Qed.

Lemma limiter_length iq : length (limiter iq) = length iq.
Proof. unfold limiter. destruct (Rlt_dec _ _); [apply length_map|reflexivity]. Qed.

End Accumulator.

(** ** What [main] writes *)

Section Main.
Import Generator.
Context `{PyRuntime}.

Lemma main_ok a w tr iq tl :
  synthesize a w = (tr, Py.Ok (iq, tl)) ->
  main a w = (tr ++ epilogue a w iq tl, Py.Ok tt).
Proof.
  intros Hs. unfold main. rewrite Hs. unfold epilogue, artifact.
  cbn [OS.bind OS.emit fst snd].
  destruct (Py.endswith ".npy" (out a)); reflexivity.
Qed.

Lemma main_raise a w tr e :
  synthesize a w = (tr, Py.Raise e) -> main a w = (tr, Py.Raise e).
Proof. intros Hs. unfold main. rewrite Hs. reflexivity. Qed.

Lemma synthesize_raise a w tr e :
  accumulate a w = (tr, Py.Raise e) -> synthesize a w = (tr, Py.Raise e).
Proof. intros Hs. unfold synthesize. rewrite Hs. reflexivity. Qed.

Lemma writes_app {C} (tr1 tr2 : list (OS.event C)) :
  OS.writes (tr1 ++ tr2) = OS.writes tr1 ++ OS.writes tr2.
Proof. unfold OS.writes. apply flat_map_app. Qed.

Lemma writes_epilogue a w iq tl :
  OS.writes (epilogue a w iq tl)
  = [ (out a, artifact (out a) iq);
      (out a +:+ ".meta.json", Json (sidecar a w tl)) ].
Proof. reflexivity. Qed.

(** The synthesis does not look at the world it starts in. *)
Lemma accumulate_indep a w1 w2 : accumulate a w1 = accumulate a w2.
Proof. reflexivity. Qed.

Lemma synthesize_indep a w1 w2 : synthesize a w1 = synthesize a w2.
Proof. reflexivity. Qed.

Lemma ceil_pos (d sr : Q) : (0 < d)%Q -> (0 < sr)%Q -> (0 < Py.ceil (d * sr))%Z.
Proof.
  intros Hd Hsr. unfold Py.ceil.
  assert (Hp : (0 < d * sr)%Q) by (apply Qmult_lt_0_compat; assumption).
  pose proof (Qle_ceiling (d * sr)) as Hc.
  assert (Hz : (inject_Z 0 < inject_Z (Qceiling (d * sr)))%Q).
  { eapply Qlt_le_trans; [exact Hp|exact Hc]. }
  rewrite <- Zlt_Qlt in Hz. exact Hz.
Qed.

Lemma ceil_zero (d sr : Q) : (d == 0 \/ sr == 0)%Q -> Py.ceil (d * sr) = 0%Z.
Proof.
  intros Hz. unfold Py.ceil.
  assert (Hp : (d * sr == 0)%Q).
  { destruct Hz as [-> | ->]; ring. }
  rewrite Hp. reflexivity.
Qed.


(** The accumulator of a run with a burst: tones and noise plus the burst
    array. *)
Lemma accumulate_burst a w tl bs bd br :
  seed_ok a ->
  (0 <= Py.ceil (duration a * samplerate a))%Z ->
  parse_tones (tones a) = Py.Ok tl ->
  burst_present a bs bd br ->
  accumulate a w
  = ([], Py.Ok (vadd (tone_noise a tl)
                  (mk_burst (arange_div (Py.ceil (duration a * samplerate a))
                               (samplerate a))
                     (samplerate a) bs bd br 0 1), tl)).
Proof.
  intros Hs Hn Ht Hb.
  rewrite (accumulate_eq a w tl) by assumption.
  rewrite (add_burst_present a bs bd br) by assumption. reflexivity.
Qed.

Lemma Cadd_zero_r c : Cadd c Czero = c.
Proof. destruct c as [x y]. unfold Cadd, Czero. simpl. f_equal; lra. Qed.

Lemma accumulate_burst_lookup a w tl bs bd br k b tk :
  seed_ok a ->
  (0 <= Py.ceil (duration a * samplerate a))%Z ->
  parse_tones (tones a) = Py.Ok tl ->
  burst_present a bs bd br ->
  (0 <= Py.int_of_float (bs * samplerate a))%Z ->
  (0 <= Py.int_of_float (bd * samplerate a))%Z ->
  tone_noise a tl !! k = Some b ->
  arange_div (Py.ceil (duration a * samplerate a)) (samplerate a) !! k = Some tk ->
  exists acc,
    accumulate a w = ([], Py.Ok (acc, tl))
    /\ acc !! k
       = Some (if decide (Py.int_of_float (bs * samplerate a) <= Z.of_nat k
                          < Py.int_of_float (bs * samplerate a)
                            + Py.int_of_float (bd * samplerate a))%Z
               then Cadd b (burst_wave 1 br tk) else b).
Proof.
  intros Hs Hn Ht Hb Hs0 Hd0 Hk Htk.
  eexists. split; [apply accumulate_burst; eassumption|].
  erewrite vadd_lookup; [|exact Hk|apply mk_burst_window; eassumption].
  destruct (decide _); [reflexivity|]. rewrite Cadd_zero_r. reflexivity.
Qed.


End Main.

(** ** Runs without a usable sample count, and determinism *)

Section Validation.
Import Generator.
Context `{PyRuntime}.

Lemma add_burst_writes b sr t iq tr r :
  add_burst b sr t iq = (tr, r) -> OS.writes tr = [].
Proof.
  unfold add_burst, float.
  destruct (Py.truthy b); [|intros [= <- _]; reflexivity].
  destruct (3 <=? _)%nat; [|intros [= <- _]; reflexivity].
  destruct (py_float _); [|intros [= <- _]; reflexivity].
  destruct (py_float _); [|intros [= <- _]; reflexivity].
  destruct (py_float _); intros [= <- _]; reflexivity.
Qed.

Lemma limiter_nil : limiter [] = [].
Proof.
  unfold limiter, max_amp. simpl.
  destruct (Rlt_dec 1 1); [lra|reflexivity].
Qed.

(** A run with sample count zero goes through and writes an empty
    artifact. *)
Lemma main_zero a w :
  Py.ceil (duration a * samplerate a) = 0%Z ->
  seed_ok a -> parses a ->
  exists tr tl,
    main a w = (tr ++ epilogue a w [] tl, Py.Ok tt) /\ OS.writes tr = [].
Proof.
  intros Hn Hs Hp.
  destruct (accumulate_total a w Hs ltac:(lia) Hp) as (tr & acc & tl & Ha).
  pose proof (accumulate_length a w _ _ _ Ha) as [_ Hlen].
  rewrite Hn in Hlen. destruct acc; [|discriminate].
  exists tr, tl. split.
  - rewrite <- limiter_nil. apply main_ok, synthesize_eq, Ha.
  - destruct (proj1 Hp) as [tl' Htl].
    rewrite (accumulate_eq a w tl') in Ha by (assumption || lia).
    destruct (add_burst _ _ _ _) as [tr' [iq'|e]] eqn:Hb; [|discriminate].
    apply add_burst_writes in Hb.
    cbn [OS.bind OS.ret] in Ha. rewrite app_nil_r in Ha.
    injection Ha as <- _ _. exact Hb.
Qed.

Lemma main_negative a w :
  (Py.ceil (duration a * samplerate a) < 0)%Z ->
  exists msg, main a w = ([], Py.Raise (Py.ValueError msg)).
Proof.
  intros Hn. destruct (accumulate_negative a w Hn) as [msg Ha].
  exists msg. apply main_raise, synthesize_raise, Ha.
Qed.

(** C3, as the code has it.  The engine checks neither the duration nor the
    sample rate.  When [ceil(duration_s * samplerate_hz)] is negative the run
    fails with [ValueError] before anything is written; when it is zero, which
    is the case whenever the duration or the rate is zero, a run whose seed is
    in range and whose strings can be read completes and writes an empty
    artifact with its sidecar. *)
Theorem no_specification_check (a : args) (w : world) :
  ((Py.ceil (duration a * samplerate a) < 0)%Z ->
     exists msg, main a w = ([], Py.Raise (Py.ValueError msg)))
  /\ (Py.ceil (duration a * samplerate a) = 0%Z -> seed_ok a -> parses a ->
      exists tr tl,
        main a w = (tr ++ epilogue a w [] tl, Py.Ok tt)
        /\ OS.writes (tr ++ epilogue a w [] tl)
           = [ (out a, artifact (out a) []);
               (out a +:+ ".meta.json", Json (sidecar a w tl)) ])
  /\ ((duration a == 0 \/ samplerate a == 0)%Q ->
      Py.ceil (duration a * samplerate a) = 0%Z).
Proof.
  split; [apply main_negative|]. split; [|apply ceil_zero].
  intros Hn Hs Hp.
  destruct (main_zero a w Hn Hs Hp) as (tr & tl & Hm & Hw).
  exists tr, tl. split; [exact Hm|].
  rewrite writes_app, Hw, writes_epilogue. reflexivity.
Qed.

(** C4. For a fixed command line, two runs that start in different worlds
    (another clock reading, another state of the global generator) end the
    same way, make the same calls up to the timestamp of the sidecar, and write
    the same artifact. *)
Theorem synthesis_deterministic (a : args) (w1 w2 : world) :
  snd (main a w1) = snd (main a w2)
  /\ map Spec.erase_event (fst (main a w1)) = map Spec.erase_event (fst (main a w2))
  /\ forall p c,
       (forall m, c <> Json m) ->
       In (p, c) (OS.writes (fst (main a w1))) ->
       In (p, c) (OS.writes (fst (main a w2))).
Proof.
  destruct (synthesize a w1) as [tr [[iq tl]|e]] eqn:Hs1.
  - pose proof Hs1 as Hs2. rewrite (synthesize_indep a w1 w2) in Hs2.
    rewrite (main_ok a w1 _ _ _ Hs1), (main_ok a w2 _ _ _ Hs2).
    cbn [fst snd]. split; [reflexivity|]. split.
    + rewrite !map_app. reflexivity.
    + intros p c Hc. rewrite !writes_app, !writes_epilogue, !in_app_iff.
      intros [Hin|Hin]; [left; exact Hin|right].
      destruct Hin as [Hin|[Hin|[]]]; [left; exact Hin|].
      injection Hin as _ <-. exfalso. eapply Hc. reflexivity.
  - pose proof Hs1 as Hs2. rewrite (synthesize_indep a w1 w2) in Hs2.
    rewrite (main_raise a w1 _ _ Hs1), (main_raise a w2 _ _ Hs2).
    cbn [fst snd]. split; [reflexivity|]. split; [reflexivity|]. tauto.
Qed.

End Validation.

(** ** The amplitude limiter *)

Section Limiter.
Import Generator.
Local Open Scope R_scope.

Lemma Cabs_nonneg c : 0 <= Cabs c.
Proof. apply sqrt_pos. Qed.

Lemma Cabs_zero : Cabs Czero = 0.
Proof.
  unfold Cabs, Czero. simpl.
  replace (0 * 0 + 0 * 0) with 0 by lra. apply sqrt_0.
Qed.

Lemma Cabs_div c m : 0 < m -> Cabs (Cdiv c m) = Cabs c / m.
Proof.
  intros Hm. destruct c as [x y]. unfold Cabs, Cdiv. simpl.
  replace (x / m * (x / m) + y / m * (y / m))
    with ((x * x + y * y) * (/ m * / m)) by (field; lra).
  assert (Hi : 0 < / m) by (apply Rinv_0_lt_compat; exact Hm).
  rewrite sqrt_mult_alt by nra.
  rewrite sqrt_square by lra. reflexivity.
Qed.

Lemma peak_cons c iq : peak (c :: iq) = Rmax (Cabs c) (peak iq).
Proof. reflexivity. Qed.

Lemma peak_nonneg iq : 0 <= peak iq.
Proof.
  induction iq as [|c iq IH]; [unfold peak; simpl; lra|].
  rewrite peak_cons. pose proof (Rmax_r (Cabs c) (peak iq)). lra.
Qed.

Lemma peak_ge iq c : In c iq -> Cabs c <= peak iq.
Proof.
  induction iq as [|c' iq IH]; [intros []|].
  rewrite peak_cons. intros [->|Hin].
  - apply Rmax_l.
  - pose proof (Rmax_r (Cabs c') (peak iq)). specialize (IH Hin). lra.
Qed.

(** Dividing every sample by one positive number divides the peak by it. *)
Lemma peak_scale iq m :
  0 < m -> peak (map (fun c => Cdiv c m) iq) = peak iq / m.
Proof.
  intros Hm. induction iq as [|c iq IH].
  - unfold peak. simpl. lra.
  - change (map ?f (c :: iq)) with (f c :: map f iq).
    rewrite !peak_cons, IH, Cabs_div by exact Hm.
    unfold Rdiv. rewrite !(Rmult_comm _ (/ m)).
    apply RmaxRmult. left. apply Rinv_0_lt_compat. exact Hm.
Qed.

Lemma nonzero_false c : nonzero c = false -> c = Czero.
Proof.
  destruct c as [x y]. unfold nonzero, Czero. simpl.
  destruct (Req_dec_T x 0) as [->|]; [|discriminate].
  destruct (Req_dec_T y 0) as [->|]; [reflexivity|discriminate].
Qed.

Lemma np_any_false iq : np_any iq = false -> peak iq = 0.
Proof.
  unfold np_any. induction iq as [|c iq IH]; [reflexivity|].
  simpl. intros Hc. apply orb_false_elim in Hc as [Hc Hr].
  rewrite peak_cons, (IH Hr), (nonzero_false c Hc), Cabs_zero.
  apply Rmax_left. lra.
Qed.

Lemma fold_left_Rmax l : forall x,
  0 <= x -> fold_left Rmax l x = Rmax x (fold_right Rmax 0 l).
Proof.
  induction l as [|y l IH]; intros x Hx; simpl.
  - symmetry. apply Rmax_left. exact Hx.
  - rewrite IH.
    + symmetry. apply Rmax_assoc.
    + pose proof (Rmax_l x y). lra.
Qed.

Lemma np_max_peak iq : iq <> [] -> np_max (map Cabs iq) = peak iq.
Proof.
  destruct iq as [|c iq]; [congruence|]. intros _.
  change (np_max (map Cabs (c :: iq))) with (fold_left Rmax (map Cabs iq) (Cabs c)).
  rewrite fold_left_Rmax by apply Cabs_nonneg. reflexivity.
Qed.

(** The scale factor that the code computes is the peak, unless the sequence
    is all zero (or empty), where it is one. *)
Lemma max_amp_peak iq :
  (np_any iq = true /\ max_amp iq = peak iq)
  \/ (np_any iq = false /\ max_amp iq = 1 /\ peak iq = 0).
Proof.
  unfold max_amp. destruct (np_any iq) eqn:Hany.
  - left. split; [reflexivity|]. apply np_max_peak.
    intros ->. discriminate.
  - right. split; [reflexivity|]. split; [reflexivity|].
    apply np_any_false. exact Hany.
Qed.

Lemma limiter_scaled iq :
  1 < peak iq -> limiter iq = map (fun c => Cdiv c (peak iq)) iq.
Proof.
  intros Hp. unfold limiter.
  destruct (max_amp_peak iq) as [[_ ->]|(_ & _ & Hz)]; [|lra].
  destruct (Rlt_dec 1 (peak iq)); [reflexivity|lra].
Qed.

Lemma limiter_unscaled iq : peak iq <= 1 -> limiter iq = iq.
Proof.
  intros Hp. unfold limiter.
  destruct (max_amp_peak iq) as [[_ ->]|(_ & -> & _)];
    destruct (Rlt_dec 1 _); (reflexivity || lra).
Qed.

Lemma Cdiv_scale c m : Cdiv c m = Cscale (/ m) c.
Proof. unfold Cdiv, Cscale, Rdiv. f_equal; apply Rmult_comm. Qed.

(** A limited sample is the sample itself or the sample divided by a number
    above one. *)
Lemma limiter_lookup iq k c :
  iq !! k = Some c ->
  limiter iq !! k = Some c
  \/ exists m, 1 < m /\ limiter iq !! k = Some (Cdiv c m).
Proof.
  intros Hk. unfold limiter. destruct (Rlt_dec 1 (max_amp iq)) as [Hm|Hm].
  - right. exists (max_amp iq). split; [exact Hm|].
    change (map ?f ?l) with (f <$> l). rewrite list_lookup_fmap, Hk. reflexivity.
  - left. exact Hk.
Qed.


End Limiter.

(** ** Worked runs of the engine *)

Section EngineExamples.
Import Generator.
Existing Instance Lab.runtime.

Example burst_run_parses :
  parse_tones (tones Lab.burst_run) = Py.Ok [(0, -5 # 10)%Q]
  /\ burst_present Lab.burst_run 0 (5 # 10) 0.
Proof. split; [reflexivity|]. repeat split; reflexivity. Qed.

Example burst_run_window :
  Py.int_of_float (0 * samplerate Lab.burst_run) = 0%Z
  /\ Py.int_of_float ((5 # 10) * samplerate Lab.burst_run) = 2%Z.
Proof. split; reflexivity. Qed.

Lemma burst_run_baseline :
  tone_noise Lab.burst_run [(0, -5 # 10)%Q] !! 0%nat
  = Some (Cadd Czero (burst_wave (-5 # 10) 0 (inject_Z 0 / 4))).
Proof. reflexivity. Qed.



Lemma empty_run_parses : parses Lab.empty_run.
Proof. split; [exists []; reflexivity|]. intros Ht. discriminate Ht. Qed.

(** C3 fails as stated: the run [Lab.empty_run] has duration zero and yet
    completes. *)
Lemma invalid_specification_refuted :
  ~ Spec.invalid_rejected Lab.empty_run Lab.world0.
Proof.
  intros Hc. destruct Hc as (tr & e & Hm & _).
  { left. apply Qle_refl. }
  destruct (main_zero Lab.empty_run Lab.world0) as (tr' & tl & Hm' & _).
  - reflexivity.
  - unfold seed_ok. simpl. lia.
  - exact empty_run_parses.
  - rewrite Hm' in Hm. discriminate Hm.
Qed.

(** The theorem [no_specification_check] at the run [Lab.empty_run]. *)
Lemma no_specification_check_witness :
  exists tr tl,
    main Lab.empty_run Lab.world0
    = (tr ++ epilogue Lab.empty_run Lab.world0 [] tl, Py.Ok tt).
Proof.
  destruct (no_specification_check Lab.empty_run Lab.world0) as (_ & Hzero & _).
  destruct Hzero as (tr & tl & Hm & _).
  - reflexivity.
  - unfold seed_ok. simpl. lia.
  - split; [exists []; reflexivity|]. intros Ht. discriminate Ht.
  - exists tr, tl. exact Hm.
Defined.


(** The calls of the run [Lab.empty_run], one by one. *)
Example empty_run_trace :
  main Lab.empty_run Lab.world0
  = ([ OS.Makedirs ".";
       OS.WriteFile "capture.iq" (RawFloat32 []);
       OS.WriteFile "capture.iq.meta.json"
         (Json (mkmeta "2025-01-01T00:00:00Z" 0 4 [] 0 "" 42 "capture.iq"
                  "Simulated IQ for safe, in-cage or offline analysis only. Do not transmit."));
       OS.Print "[+] Wrote capture.iq and metadata capture.iq.meta.json";
       OS.Print "[+] Preview: tones=[], noise_sigma=0.0, burst=";
       OS.Print "[!] Reminder: this is simulated IQ data for contained lab use only" ],
     Py.Ok tt).
Proof.
  assert (Ha : accumulate Lab.empty_run Lab.world0 = ([], Py.Ok ([], [])))
    by reflexivity.
  apply synthesize_eq in Ha. rewrite limiter_nil in Ha.
  rewrite (main_ok _ _ _ _ _ Ha). reflexivity.
Qed.

(** The tone argument that the orchestrator builds from 100000.7 Hz reaches
    the engine as 100000 Hz. *)
Example truncated_tone_parsed :
  parse_tones "100000:1.0,-2:0.8"
  = Py.Ok [(inject_Z 100000, 10 # 10)%Q; (inject_Z (-2), 8 # 10)%Q].
Proof. reflexivity. Qed.

End EngineExamples.

(** ** The orchestrator *)

Section Gate.
Import Orchestrator.
Context `{PyRuntime}.

Lemma bind_ok_inv {C A B} (m : OS.io C A) (k : A -> OS.io C B) tr b :
  OS.bind m k = (tr, Py.Ok b) ->
  exists tr1 a tr2, m = (tr1, Py.Ok a) /\ k a = (tr2, Py.Ok b) /\ tr = tr1 ++ tr2.
Proof.
  unfold OS.bind. destruct m as [tr1 [a|e]]; [|discriminate].
  destruct (k a) as [tr2 r] eqn:Hk. intros [= <- ->].
  exists tr1, a, tr2. auto.
Qed.

(** The override is read as set only when the variable is exactly ["1"]. *)
Lemma override_off w :
  w_getenv w "ALLOW_REAL_CAPTURE" <> Some "1" ->
  String.eqb (Py.get (w_getenv w "ALLOW_REAL_CAPTURE") "0") "1" = false.
Proof.
  intros Hv. destruct (w_getenv w "ALLOW_REAL_CAPTURE") as [v|]; [|reflexivity].
  apply String.eqb_neq. cbn [Py.get]. intros Heq. apply Hv. rewrite Heq. reflexivity.
Qed.

Lemma main_rejected w m outdir cp md :
  m_capture_parameters m = Some cp ->
  mode cp = Some md ->
  md <> "simulated" ->
  w_getenv w "ALLOW_REAL_CAPTURE" <> Some "1" ->
  main w m outdir
  = ([OS.Makedirs (run_dir w m outdir); OS.Print rejection_notice], Py.Ok Rejected).
Proof.
  intros Hcp Hmode Hmd Henv. unfold main, ensure_dir.
  rewrite Hcp. cbn [OS.bind OS.emit OS.lift Py.getitem app].
  rewrite Hmode, (override_off w Henv). cbn [Py.get].
  apply String.eqb_neq in Hmd. rewrite Hmd.
  reflexivity.
Qed.

Lemma main_not_implemented w m outdir cp md st :
  m_capture_parameters m = Some cp ->
  mode cp = Some md ->
  md <> "simulated" ->
  w_getenv w "ALLOW_REAL_CAPTURE" = Some "1" ->
  m_stimulus m = Some st ->
  exists msg,
    main w m outdir
    = ([OS.Makedirs (run_dir w m outdir)], Py.Raise (Py.NotImplementedError msg)).
Proof.
  intros Hcp Hmode Hmd Henv Hst. unfold main, ensure_dir.
  rewrite Hcp, Hst. cbn [OS.bind OS.emit OS.lift Py.getitem app].
  rewrite Hmode, Henv. cbn [Py.get Py.option_eqb].
  apply String.eqb_neq in Hmd. rewrite Hmd.
  eexists. reflexivity.
Qed.

(** Without a [stimulus] entry the run that passed the gate stops at line 81. *)
Lemma main_no_stimulus w m outdir cp md :
  m_capture_parameters m = Some cp ->
  mode cp = Some md ->
  md <> "simulated" ->
  w_getenv w "ALLOW_REAL_CAPTURE" = Some "1" ->
  m_stimulus m = None ->
  main w m outdir
  = ([OS.Makedirs (run_dir w m outdir)], Py.Raise (Py.KeyError "stimulus")).
Proof.
  intros Hcp Hmode Hmd Henv Hst. unfold main, ensure_dir.
  rewrite Hcp, Hst. cbn [OS.bind OS.emit OS.lift Py.getitem app].
  rewrite Hmode, Henv. cbn [Py.get].
  apply String.eqb_neq in Hmd. rewrite Hmd. reflexivity.
Qed.


(** A run that ends by the early return of line 78 has made exactly two
    calls. *)
Lemma rejected_trace w m outdir tr :
  main w m outdir = (tr, Py.Ok Rejected) ->
  tr = [OS.Makedirs (run_dir w m outdir); OS.Print rejection_notice].
Proof.
  unfold main, ensure_dir. intros Hm.
  apply bind_ok_inv in Hm as (tr1 & [] & tr2 & [= <-] & Hm & ->).
  apply bind_ok_inv in Hm as (tr1 & cp & tr3 & Hcp & Hm & ->).
  destruct (m_capture_parameters m); [|discriminate].
  injection Hcp as <- <-.
  destruct (_ && _)%bool.
  - injection Hm as <-. reflexivity.
  - exfalso.
    repeat (apply bind_ok_inv in Hm as (? & ? & ? & _ & Hm & _)).
    discriminate Hm.
Qed.


End Gate.

(** ** Encoding the tone list *)

Section Tones.
Import Orchestrator.
Context `{PyRuntime}.

(** [int] on a float drops the fractional part and moves toward zero. *)
Lemma int_of_float_toward_zero (q : Q) :
  ((0 <= q -> inject_Z (Py.int_of_float q) <= q
              /\ q < inject_Z (Py.int_of_float q) + 1)
   /\ (q <= 0 -> inject_Z (Py.int_of_float q) - 1 < q
                 /\ q <= inject_Z (Py.int_of_float q)))%Q.
Proof.
  destruct q as [n d]. unfold Py.int_of_float. cbn [Qnum Qden]. split.
  - intros Hq. assert (Hn : (0 <= n)%Z).
    { unfold Qle in Hq. cbn in Hq. lia. }
    rewrite Z.quot_div_nonneg by lia.
    change (n / Z.pos d)%Z with (Qfloor (n # d)). split.
    + apply Qfloor_le.
    + rewrite <- (inject_Z_plus _ 1). apply Qlt_floor.
  - intros Hq. assert (Hn : (n <= 0)%Z).
    { unfold Qle in Hq. cbn in Hq. lia. }
    replace (n ÷ Z.pos d)%Z with (Qceiling (n # d)).
    + split.
      * change (inject_Z (Qceiling (n # d)) - 1)%Q
          with (inject_Z (Qceiling (n # d)) + inject_Z (-1))%Q.
        rewrite <- inject_Z_plus. apply Qceiling_lt.
      * apply Qle_ceiling.
    + unfold Qceiling, Qfloor. cbn [Qopp Qnum Qden].
      rewrite <- (Z.opp_involutive n) at 2.
      rewrite Z.quot_opp_l by lia.
      rewrite Z.quot_div_nonneg by lia. reflexivity.
Qed.

Lemma tone_args_ok (tones : list tone_entry) (fs : list num) :
  map freq_hz tones = map Some fs ->
  tone_args tones = Py.Ok (zip_with tone_token fs tones).
Proof.
  revert fs. induction tones as [|t tones IH]; intros [|f fs] Hfs;
    try discriminate; [reflexivity|].
  injection Hfs as Hf Hfs. cbn [tone_args]. unfold tone_arg.
  rewrite Hf, (IH fs Hfs). reflexivity.
Qed.


End Tones.

(** ** Worked runs of the orchestrator *)

Section OrchestratorExamples.
Import Orchestrator.
Existing Instance Lab.runtime.

Example real_manifest_rejected :
  main Lab.locked_world Lab.real_manifest "runs"
  = ([OS.Makedirs "runs/exp1_20250101T000000Z"; OS.Print rejection_notice],
     Py.Ok Rejected).
Proof. reflexivity. Qed.

Example real_manifest_tones :
  tones_arg [mktone (Some (Float (1000007 # 10))) None;
             mktone (Some (Float (-27 # 10))) (Some (Float (8 # 10)))]
  = Py.Ok "100000:1.0,-2:0.8".
Proof. reflexivity. Qed.

(** A simulated run, call by call: the command line of the engine carries
    the truncated frequency, the default amplitude and the burst token. *)
Example simulated_manifest_trace :
  main Lab.locked_world Lab.simulated_manifest "runs"
  = ([ OS.Makedirs "runs/exp1_20250101T000000Z";
       OS.Print "[+] Running simulated generator to produce IQ -> runs/exp1_20250101T000000Z/capture.iq";
       OS.Spawn ["python3"; "tools/simulated_iq_generator.py";
                 "--duration"; "1"; "--samplerate"; "1000000";
                 "--tones"; "100000:1.0"; "--noise"; "0.0";
                 "--out"; "runs/exp1_20250101T000000Z/capture.iq";
                 "--seed"; "10"; "--burst"; "0.2:0.05:5000"];
       OS.Spawn ["cp"; "runs/exp1_20250101T000000Z/capture.iq.meta.json";
                 "runs/exp1_20250101T000000Z"];
       OS.WriteFile "runs/exp1_20250101T000000Z/run_metadata.json"
         (mkrunmeta Lab.simulated_manifest "2025-01-01T00:00:00Z"
            "Simulated run completed. No over-air transmissions performed.");
       OS.Print "[+] Run outputs saved in runs/exp1_20250101T000000Z";
       OS.Print "[!] Reminder: this run used simulated IQ; do not transmit these files over the air outside of shielded, authorized environments." ],
     Py.Ok Completed).
Proof. reflexivity. Qed.




End OrchestratorExamples.

(** ** Further properties of the engine *)

Section ParseTones.
Import Generator EngineTerms.
Context `{PyRuntime}.

Lemma float_inv s q : float s = Py.Ok q <-> py_float s = Some q.
Proof.
  unfold float. destruct (py_float s); split; intros Hq; congruence.
Qed.

Lemma parse_tone_fields_spec (fields : list string) (tl : list (Q * Q)) :
  parse_tone_fields fields = Py.Ok tl
  <-> Forall2 tone_field (filter Py.truthy fields) tl.
Proof.
  revert tl. induction fields as [|s rest IH]; intros tl.
  - cbn. split.
    + intros [= <-]. constructor.
    + intros Hf. inversion Hf. reflexivity.
  - cbn [parse_tone_fields]. destruct (Py.truthy s) eqn:Hs; cbn [negb].
    + rewrite filter_cons_True by (rewrite Hs; exact I).
      unfold float at 1.
      destruct (py_float (nth 0 (Py.split ":" s) "")) as [f|] eqn:Hf; cbn [Py.bind].
      2:{ split; [discriminate|]. intros Hall. inversion Hall as [|? fa ? ? [Hh _]]; subst.
          congruence. }
      assert (Hamp : forall am,
                 match Py.split ":" s with
                 | _ :: p1 :: _ => float p1
                 | _ => Py.Ok 1%Q
                 end = Py.Ok am
                 <-> match Py.split ":" s with
                     | _ :: p1 :: _ => py_float p1 = Some am
                     | _ => am = 1%Q
                     end).
      { intros am. destruct (Py.split ":" s) as [|p0 [|p1 ps]].
        - split; [intros [= <-]|intros ->]; reflexivity.
        - split; [intros [= <-]|intros ->]; reflexivity.
        - apply float_inv. }
      destruct (match Py.split ":" s with
                | _ :: p1 :: _ => float p1
                | _ => Py.Ok 1%Q
                end) as [am|e] eqn:Ham; cbn [Py.bind].
      2:{ split; [discriminate|]. intros Hall.
          inversion Hall as [|? [f' am'] ? ? [_ Ha]]; subst.
          apply Hamp in Ha. discriminate Ha. }
      destruct (parse_tone_fields rest) as [out|e] eqn:Hrest; cbn [Py.bind].
      * split.
        -- intros [= <-]. constructor.
           ++ split; [exact Hf|]. apply Hamp. reflexivity.
           ++ apply IH. reflexivity.
        -- intros Hall. inversion Hall as [|? [f' am'] ? tl' [Hh Ha] Ht]; subst.
           cbn in Hh. apply Hamp in Ha. cbn in Ha. apply IH in Ht.
           congruence.
      * split; [discriminate|]. intros Hall.
        inversion Hall as [|? fa ? tl' _ Ht]; subst.
        apply IH in Ht. discriminate Ht.
    + rewrite filter_cons_False by (rewrite Hs; intros []). apply IH.
Qed.

(** X1. [parse_tones] succeeds with the list [tl] exactly when [tl] has one
    pair per non-empty comma field of the string, in order, each pair being
    what [float] reads in that field (amplitude 1.0 when the field has no
    colon); empty fields, such as the one after a trailing comma, are skipped,
    and any failure is a [ValueError]. *)
Theorem parse_tones_fields (specs : string) :
  (forall tl, parse_tones specs = Py.Ok tl
              <-> Forall2 tone_field (filter Py.truthy (Py.split "," specs)) tl)
  /\ (forall e, parse_tones specs = Py.Raise e -> exists msg, e = Py.ValueError msg).
Proof.
  split.
  - intros tl. unfold parse_tones. destruct specs as [|c r].
    + cbn. split; [intros [= <-]; constructor|]. intros Hf. inversion Hf. reflexivity.
    + cbn [Py.truthy negb]. apply parse_tone_fields_spec.
  - intros e. unfold parse_tones. destruct (negb (Py.truthy specs)); [discriminate|].
    generalize (Py.split "," specs). intros fields. revert e.
    induction fields as [|s rest IH]; intros e; cbn [parse_tone_fields]; [discriminate|].
    destruct (negb (Py.truthy s)); [apply IH|].
    unfold float.
    destruct (py_float (nth 0 (Py.split ":" s) "")); cbn [Py.bind];
      [|intros [= <-]; eauto].
    destruct (Py.split ":" s) as [|p0 [|p1 ps]]; cbn [Py.bind].
    + destruct (parse_tone_fields rest); cbn [Py.bind]; [discriminate|].
      intros [= <-]. apply IH. reflexivity.
    + destruct (parse_tone_fields rest); cbn [Py.bind]; [discriminate|].
      intros [= <-]. apply IH. reflexivity.
    + destruct (py_float p1); cbn [Py.bind]; [|intros [= <-]; eauto].
      destruct (parse_tone_fields rest); cbn [Py.bind]; [discriminate|].
      intros [= <-]. apply IH. reflexivity.
Qed.

End ParseTones.

Section Outcomes.
Import Generator EngineTerms.
Context `{PyRuntime}.

Lemma seed_generator_inv g0 s g :
  seed_generator g0 s = Py.Ok g -> (0 <= s < 2 ^ 32)%Z.
Proof.
  unfold seed_generator.
  destruct (Z.leb_spec 0 s); destruct (Z.ltb_spec s (2 ^ 32)); cbn; try discriminate.
  intros _. lia.
Qed.

Lemma add_burst_ok_inv a sr t iq tr iq' :
  add_burst (burst a) sr t iq = (tr, Py.Ok iq') ->
  Py.truthy (burst a) = true ->
  (3 <= length (Py.split ":" (burst a)))%nat ->
  exists bs bd br, burst_present a bs bd br.
Proof.
  intros Hb Ht Hn. unfold add_burst, float in Hb. rewrite Ht in Hb.
  pose proof Hn as Hn'. apply Nat.leb_le in Hn'. rewrite Hn' in Hb.
  destruct (py_float (nth 0 _ _)) as [bs|] eqn:H0; [|discriminate].
  destruct (py_float (nth 1 _ _)) as [bd|] eqn:H1; [|discriminate].
  destruct (py_float (nth 2 _ _)) as [br|] eqn:H2; [|discriminate].
  exists bs, bd, br. repeat split; assumption.
Qed.

(** An exception of the burst step is a [ValueError] raised before any call. *)
Lemma add_burst_raise b sr t iq tr e :
  add_burst b sr t iq = (tr, Py.Raise e) ->
  tr = [] /\ exists msg, e = Py.ValueError msg.
Proof.
  unfold add_burst, float.
  destruct (Py.truthy b); [|discriminate].
  destruct (3 <=? _)%nat; [|discriminate].
  destruct (py_float _); [|intros [= <- <-]; eauto].
  destruct (py_float _); [|intros [= <- <-]; eauto].
  destruct (py_float _); [discriminate|intros [= <- <-]; eauto].
Qed.

Lemma accumulate_ok_inv a w tr acc tl :
  accumulate a w = (tr, Py.Ok (acc, tl)) ->
  seed_ok a /\ (0 <= Py.ceil (duration a * samplerate a))%Z /\ parses a.
Proof.
  intros Ha. pose proof (accumulate_length a w _ _ _ Ha) as [Hn _].
  unfold accumulate in Ha.
  destruct (seed_generator (w_rng w) (seed a)) as [g|e] eqn:Hs; [|discriminate].
  apply seed_generator_inv in Hs.
  unfold np_zeros in Ha.
  destruct (Z.ltb_spec (Py.ceil (duration a * samplerate a)) 0); [lia|].
  destruct (parse_tones (tones a)) as [tl'|e] eqn:Ht; [|discriminate].
  cbn [OS.lift OS.bind app] in Ha.
  destruct (add_burst _ _ _ _) as [tr' [iq'|e]] eqn:Hb; [|discriminate].
  split; [exact Hs|]. split; [exact Hn|]. split; [eauto|].
  intros Htr Hlen. eapply add_burst_ok_inv; eassumption.
Qed.

(** An exception of the synthesis is a [ValueError] raised before any call. *)
Lemma accumulate_raise a w tr e :
  accumulate a w = (tr, Py.Raise e) ->
  tr = [] /\ exists msg, e = Py.ValueError msg.
Proof.
  unfold accumulate, seed_generator.
  destruct (_ && _)%bool; [|intros [= <- <-]; eauto].
  unfold np_zeros. destruct (_ <? _)%Z; [intros [= <- <-]; eauto|].
  destruct (parse_tones (tones a)) as [tl|e'] eqn:Ht.
  - cbn [OS.lift OS.bind app].
    destruct (add_burst _ _ _ _) as [tr' [iq'|e']] eqn:Hb; [discriminate|].
    intros [= <- <-]. eapply add_burst_raise. exact Hb.
  - intros [= <- <-]. split; [reflexivity|].
    eapply (proj2 (parse_tones_fields (tones a))). exact Ht.
Qed.



(** A burst string with fewer than three fields does not change the
    accumulator. *)
Lemma accumulate_short_burst a w tr r :
  Py.truthy (burst a) = true ->
  (length (Py.split ":" (burst a)) < 3)%nat ->
  accumulate (with_burst "" a) w = (tr, Py.Ok r) ->
  accumulate a w
  = ([OS.Print "Burst spec must be burst_start:burst_dur:burst_rate"],
     Py.Ok r).
Proof.
  intros Ht Hn. unfold accumulate. cbn [with_burst duration samplerate tones noise
                                         burst out seed].
  destruct (seed_generator _ _); [|discriminate].
  destruct (np_zeros _); [|discriminate].
  destruct (parse_tones _); [|discriminate].
  cbn [OS.lift OS.bind app].
  rewrite add_burst_absent, (add_burst_short (burst a)) by assumption.
  cbn [OS.bind OS.ret app]. intros [= <- <-]. reflexivity.
Qed.

(** X4. A non-empty burst string with fewer than three colon fields is not
    an error: the synthesis prints one notice and yields the very samples of the
    same command line with the burst string empty. *)
Theorem short_burst_ignored (a : args) (w : world) tr iq tl :
  Py.truthy (burst a) = true ->
  (length (Py.split ":" (burst a)) < 3)%nat ->
  synthesize (with_burst "" a) w = (tr, Py.Ok (iq, tl)) ->
  synthesize a w
  = ([OS.Print "Burst spec must be burst_start:burst_dur:burst_rate"],
     Py.Ok (iq, tl)).
Proof.
  intros Ht Hn Hs.
  apply synthesize_inv in Hs as (acc & Ha & ->).
  apply synthesize_eq. eapply accumulate_short_burst; eassumption.
Qed.

End Outcomes.

Section Noise.
Import Generator EngineTerms.
Context `{PyRuntime}.

Lemma np_random_normal_app (n m : nat) : forall g,
  np_random_normal (n + m) g
  = (fst (np_random_normal n g)
       ++ fst (np_random_normal m (snd (np_random_normal n g))),
     snd (np_random_normal m (snd (np_random_normal n g)))).
Proof.
  induction n as [|n IH]; intros g.
  - cbn. destruct (np_random_normal m g); reflexivity.
  - cbn [Nat.add np_random_normal].
    destruct (np_random_normal1 g) as [x g1]. rewrite (IH g1).
    destruct (np_random_normal n g1) as [xs g2]. cbn [fst snd].
    destruct (np_random_normal m g2) as [ys g3]. reflexivity.
Qed.

(** X5. [mk_noise] takes [2 * size] deviates from the generator in one
    stream and leaves the generator where that stream ends: sample [k] has the
    [k]-th deviate as real part and the [(size + k)]-th as imaginary part, both
    multiplied by [sigma]. *)
Theorem mk_noise_draw_order (sigma : Q) (size : nat) (g : rng_state) :
  snd (mk_noise sigma size g) = snd (np_random_normal (size + size) g)
  /\ length (fst (mk_noise sigma size g)) = size
  /\ forall k x y,
       fst (np_random_normal (size + size) g) !! k = Some x ->
       fst (np_random_normal (size + size) g) !! (size + k)%nat = Some y ->
       (k < size)%nat ->
       fst (mk_noise sigma size g) !! k
       = Some ((Q2R sigma * x)%R, (Q2R sigma * y)%R).
Proof.
  rewrite np_random_normal_app.
  pose proof (np_random_normal_length size g) as Hre.
  pose proof (np_random_normal_length size (snd (np_random_normal size g))) as Him.
  unfold mk_noise.
  destruct (np_random_normal size g) as [re g1]. cbn [fst snd] in *.
  destruct (np_random_normal size g1) as [im g2]. cbn [fst snd] in *.
  split; [reflexivity|]. split; [rewrite length_zip_with; lia|].
  intros k x y Hx Hy Hk.
  rewrite lookup_app_l in Hx by lia.
  rewrite lookup_app_r in Hy by lia.
  replace (size + k - length re)%nat with k in Hy by lia.
  rewrite lookup_zip_with, Hx, Hy. reflexivity.
Qed.

Lemma add_noise_off sigma n g iq : (sigma <= 0)%Q -> add_noise sigma n g iq = iq.
Proof.
  intros Hs. unfold add_noise. apply Qle_bool_iff in Hs. rewrite Hs.
  rewrite andb_false_r. reflexivity.
Qed.

(** X6. With a noise sigma that is zero or negative the generator is not
    used: two command lines that differ in the seed only, both seeds being in
    range, synthesize the same samples. *)
Theorem seed_irrelevant_without_noise (a : args) (s : Z) (w : world) :
  (noise a <= 0)%Q ->
  seed_ok a ->
  (0 <= s < 2 ^ 32)%Z ->
  synthesize (with_seed s a) w = synthesize a w.
Proof.
  intros Hn Hs Hs'. unfold synthesize, accumulate.
  cbn [with_seed duration samplerate tones noise burst out seed].
  rewrite !seed_generator_ok by assumption.
  cbn [OS.lift OS.bind app].
  destruct (np_zeros _); [|reflexivity].
  destruct (parse_tones _); [|reflexivity].
  rewrite !add_noise_off by assumption. reflexivity.
Qed.

End Noise.

Section Magnitudes.
Import Generator EngineTerms.
Local Open Scope R_scope.

Lemma Cabs_scale_exp k x : Cabs (Cscale k (Cexp2pi x)) = Rabs k.
Proof.
  unfold Cabs, Cscale, Cexp2pi. cbn [fst snd].
  replace (k * cos (2 * PI * x) * (k * cos (2 * PI * x))
           + k * sin (2 * PI * x) * (k * sin (2 * PI * x)))
    with (Rsqr k * (Rsqr (sin (2 * PI * x)) + Rsqr (cos (2 * PI * x))))
    by (unfold Rsqr; ring).
  rewrite sin2_cos2, Rmult_1_r. apply sqrt_Rsqr_abs.
Qed.

Lemma Cadd_zero_l c : Cadd Czero c = c.
Proof. destruct c as [x y]. unfold Cadd, Czero. simpl. f_equal; lra. Qed.

Lemma peak_le iq b : 0 <= b -> (forall c, In c iq -> Cabs c <= b) -> peak iq <= b.
Proof.
  intros Hb. induction iq as [|c iq IH]; intros Hall.
  - unfold peak. simpl. exact Hb.
  - rewrite peak_cons. apply Rmax_lub.
    + apply Hall. left. reflexivity.
    + apply IH. intros c' Hc'. apply Hall. right. exact Hc'.
Qed.

Lemma peak_const iq b :
  iq <> [] -> (forall c, In c iq -> Cabs c = b) -> peak iq = b.
Proof.
  intros Hne Hall. destruct iq as [|c iq]; [congruence|].
  assert (Hb : 0 <= b).
  { rewrite <- (Hall c) by (left; reflexivity). apply Cabs_nonneg. }
  apply Rle_antisym.
  - apply peak_le; [exact Hb|]. intros c' Hc'. rewrite (Hall c' Hc'). lra.
  - rewrite <- (Hall c) by (left; reflexivity). apply peak_ge. left. reflexivity.
Qed.

Lemma limiter_peak_le iq : peak (limiter iq) <= 1.
Proof.
  destruct (Rlt_dec 1 (peak iq)) as [Hp|Hp].
  - rewrite (limiter_scaled iq Hp), peak_scale by lra.
    apply Req_le. field. lra.
  - rewrite limiter_unscaled by lra. lra.
Qed.


(** When every sample has the same magnitude the limiter brings it to that
    magnitude or to 1, whichever is smaller. *)
Lemma limiter_const iq b :
  (forall c, In c iq -> Cabs c = b) ->
  forall c, In c (limiter iq) -> Cabs c = Rmin 1 b.
Proof.
  intros Hall c Hc. destruct iq as [|c0 iq].
  { rewrite limiter_nil in Hc. destruct Hc. }
  assert (Hp : peak (c0 :: iq) = b) by (apply peak_const; [discriminate|exact Hall]).
  destruct (Rlt_dec 1 b) as [Hb|Hb].
  - rewrite limiter_scaled in Hc by lra.
    apply in_map_iff in Hc as (c' & <- & Hc').
    rewrite Hp, Cabs_div, (Hall c' Hc') by lra.
    rewrite Rmin_left by lra. field. lra.
  - rewrite limiter_unscaled in Hc by lra.
    rewrite (Hall c Hc). rewrite Rmin_right by lra. reflexivity.
Qed.

Lemma peak_zeros n : peak (replicate n Czero) = 0.
Proof.
  induction n as [|n IH]; [reflexivity|].
  cbn [replicate]. rewrite peak_cons, IH, Cabs_zero. apply Rmax_left. lra.
Qed.

End Magnitudes.

Section PureSignals.
Import Generator EngineTerms.
Context `{PyRuntime}.

(** The accumulator of a run without burst and without noise. *)
Lemma accumulate_tones_only a w tl :
  seed_ok a ->
  (0 <= Py.ceil (duration a * samplerate a))%Z ->
  parse_tones (tones a) = Py.Ok tl ->
  (noise a <= 0)%Q ->
  burst a = "" ->
  accumulate a w
  = ([], Py.Ok (add_tones tl (samplerate a)
                  (arange_div (Py.ceil (duration a * samplerate a)) (samplerate a))
                  (replicate (Z.to_nat (Py.ceil (duration a * samplerate a))) Czero),
                tl)).
Proof.
  intros Hs Hn Ht Hno Hb.
  rewrite (accumulate_eq a w tl) by assumption.
  rewrite Hb, add_burst_absent. unfold tone_noise.
  rewrite add_noise_off by assumption. reflexivity.
Qed.



End PureSignals.

Section BurstWindow.
Import Generator EngineTerms.


End BurstWindow.

(** ** Further properties of the orchestrator *)

Section Runs.
Import Orchestrator OrchestratorTerms.
Context `{PyRuntime}.

Lemma tone_args_raise tones e :
  tone_args tones = Py.Raise e -> e = Py.KeyError "freq_hz".
Proof.
  induction tones as [|t rest IH]; cbn [tone_args]; [discriminate|].
  unfold tone_arg. destruct (freq_hz t); cbn [Py.getitem Py.bind].
  - destruct (tone_args rest); cbn [Py.bind]; [discriminate|].
    intros [= <-]. apply IH. reflexivity.
  - intros [= <-]. reflexivity.
Qed.

Lemma tones_arg_raise tones e :
  tones_arg tones = Py.Raise e -> e = Py.KeyError "freq_hz".
Proof.
  unfold tones_arg. destruct (tone_args tones) eqn:Ht; cbn [Py.bind]; [discriminate|].
  intros [= <-]. eapply tone_args_raise. exact Ht.
Qed.

Lemma check_call_cases w cmd :
  (w_status w cmd = 0%Z /\ check_call w cmd = ([OS.Spawn cmd], Py.Ok tt))
  \/ (w_status w cmd <> 0%Z
      /\ check_call w cmd = ([OS.Spawn cmd], Py.Raise (Py.CalledProcessError cmd))).
Proof.
  unfold check_call. cbn [OS.bind OS.emit app].
  destruct (Z.eqb_spec (w_status w cmd) 0) as [Hz|Hz]; [left|right];
    (split; [exact Hz|reflexivity]).
Qed.

(** What [run_simulated_generator] can do: stop on a missing key before any
    call, or start the generator once and pass on how it ended. *)
Lemma run_simulated_generator_cases w m p :
  (exists k, required_key k
             /\ run_simulated_generator w m p = ([], Py.Raise (Py.KeyError k)))
  \/ (exists cmd,
        generator_command m p cmd
        /\ ((w_status w cmd = 0%Z
             /\ run_simulated_generator w m p = ([OS.Spawn cmd], Py.Ok p))
            \/ (w_status w cmd <> 0%Z
                /\ run_simulated_generator w m p
                   = ([OS.Spawn cmd], Py.Raise (Py.CalledProcessError cmd))))).
Proof.
  unfold run_simulated_generator, generator_command.
  destruct (tones_arg _) as [ta|e] eqn:Hta.
  2:{ left. apply tones_arg_raise in Hta as ->. exists "freq_hz".
      split; [unfold required_key; tauto|reflexivity]. }
  destruct (m_capture_parameters m) as [cp|] eqn:Hcp.
  2:{ left. exists "capture_parameters".
      split; [unfold required_key; tauto|reflexivity]. }
  destruct (duration_s cp) as [d|] eqn:Hd.
  2:{ left. exists "duration_s". split; [unfold required_key; tauto|].
      cbn [OS.lift OS.bind Py.getitem app]. rewrite Hd. reflexivity. }
  destruct (samplerate_hz cp) as [sr|] eqn:Hsr.
  2:{ left. exists "samplerate_hz". split; [unfold required_key; tauto|].
      cbn [OS.lift OS.bind Py.getitem app]. rewrite Hd. cbn [OS.lift OS.bind Py.getitem app].
      rewrite Hsr. reflexivity. }
  right.
  destruct (burst_arg (Py.get (burst (Py.get (m_stimulus m) empty_stimulus)) empty_burst))
    as [b|] eqn:Hb;
    (eexists; split;
     [exists ta, cp, d, sr; repeat split; (eassumption || reflexivity)|]);
    cbn [OS.lift OS.bind Py.getitem app]; rewrite Hd;
    cbn [OS.lift OS.bind Py.getitem app]; rewrite Hsr;
    cbn [OS.lift OS.bind Py.getitem app];
    match goal with
    | |- context [check_call w ?c] =>
        destruct (check_call_cases w c) as [[Hz Hc]|[Hz Hc]]; rewrite Hc
    end;
    [left|right|left|right]; (split; [exact Hz|reflexivity]).
Qed.

Lemma gate_closed w md :
  (negb (String.eqb md "simulated")
   && negb (String.eqb (Py.get (w_getenv w "ALLOW_REAL_CAPTURE") "0") "1"))%bool = true ->
  md <> "simulated" /\ w_getenv w "ALLOW_REAL_CAPTURE" <> Some "1".
Proof.
  intros Hg. apply andb_prop in Hg as [Hm He].
  apply negb_true_iff in Hm, He. apply String.eqb_neq in Hm, He.
  split; [exact Hm|]. intros Heq. rewrite Heq in He. apply He. reflexivity.
Qed.

Lemma mode_is_simulated (o : option string) :
  Py.option_eqb String.eqb o (Some "simulated") = true <-> o = Some "simulated".
Proof.
  destruct o as [md|]; cbn [Py.option_eqb]; [|split; discriminate].
  rewrite String.eqb_eq. split; congruence.
Qed.

(** Every run of [main] goes one of the eight ways of [outcome]. *)
Lemma main_outcome w m outdir :
  outcome w m outdir (fst (main w m outdir)) (snd (main w m outdir)).
Proof.
  unfold main, ensure_dir.
  destruct (m_capture_parameters m) as [cp|] eqn:Hcp;
    cbn [OS.bind OS.emit OS.lift Py.getitem app fst snd];
    [|apply NoCaptureParameters; exact Hcp].
  destruct (_ && _)%bool eqn:Hgate.
  { cbn [OS.bind OS.emit OS.ret app fst snd].
    destruct (mode cp) as [md|] eqn:Hmode; cbn [Py.get] in Hgate.
    - apply gate_closed in Hgate as [Hmd Henv].
      eapply GateRejects; eassumption.
    - discriminate Hgate. }
  destruct (m_stimulus m) as [st|] eqn:Hst;
    cbn [OS.bind OS.emit OS.lift Py.getitem app fst snd];
    [|eapply NoStimulus; eassumption].
  destruct (Py.option_eqb String.eqb (mode cp) (Some "simulated")) eqn:Hsim.
  2:{ cbn [OS.bind OS.raise app fst snd].
      eapply NotSimulated; try eassumption.
      intros Hm. apply mode_is_simulated in Hm. congruence. }
  apply mode_is_simulated in Hsim.
  assert (Hip : Py.path_join (run_dir w m outdir)
                  (Py.get (simulated_iq_file st) "capture.iq")
                = iq_path w m outdir).
  { unfold iq_path. rewrite Hst. reflexivity. }
  rewrite Hip.
  destruct (run_simulated_generator_cases w m (iq_path w m outdir))
    as [(k & Hk & Hr)|(cmd & Hcmd & [[Hz Hr]|[Hz Hr]])]; rewrite Hr;
    cbn [OS.bind OS.emit OS.ret app fst snd].
  - eapply MissingKey; eassumption.
  - destruct (w_exists w (iq_path w m outdir +:+ ".meta.json")) eqn:Hex.
    + destruct (check_call_cases w ["cp"; iq_path w m outdir +:+ ".meta.json";
                                     run_dir w m outdir]) as [[Hc Hcc]|[Hc Hcc]];
        rewrite Hcc; cbn [OS.bind OS.emit OS.ret app fst snd].
      * pose proof (Completes w m outdir cp st cmd Hcp Hst Hsim Hcmd Hz) as Hfin.
        rewrite Hex in Hfin. apply Hfin. intros _. exact Hc.
      * eapply CopyFails; eassumption.
    + pose proof (Completes w m outdir cp st cmd Hcp Hst Hsim Hcmd Hz) as Hfin.
      rewrite Hex in Hfin. apply Hfin. discriminate.
  - eapply GeneratorFails; eassumption.
Qed.

End Runs.

Section RunProperties.
Import Orchestrator OrchestratorTerms.
Context `{PyRuntime}.

Lemma writes_closing w m outdir :
  OS.writes (closing_calls w m outdir)
  = [(Py.path_join (run_dir w m outdir) "run_metadata.json", final_metadata w m)].
Proof. reflexivity. Qed.

Lemma writes_completes w m outdir cmd :
  OS.writes
    ([OS.Makedirs (run_dir w m outdir); OS.Print (running_notice w m outdir);
      OS.Spawn cmd]
     ++ (if w_exists w (iq_path w m outdir +:+ ".meta.json")
         then [OS.Spawn (copy_command w m outdir)] else [])
     ++ closing_calls w m outdir)
  = [(Py.path_join (run_dir w m outdir) "run_metadata.json", final_metadata w m)].
Proof. destruct (w_exists w _); reflexivity. Qed.

(** X11. The generator, or any other child process, is started only for a
    manifest whose mode entry is the literal ["simulated"], whatever the value
    of [ALLOW_REAL_CAPTURE]. *)
Theorem child_only_in_simulated_mode (w : world) (m : manifest) (outdir : string)
    (cmd : list string) :
  In (OS.Spawn cmd) (fst (main w m outdir)) ->
  exists cp, m_capture_parameters m = Some cp /\ mode cp = Some "simulated".
Proof.
  pose proof (main_outcome w m outdir) as Ho.
  remember (fst (main w m outdir)) as tr. remember (snd (main w m outdir)) as r.
  destruct Ho; intros Hin; try (exists cp; split; assumption);
    cbn in Hin; exfalso;
    repeat (destruct Hin as [Hin|Hin]; [discriminate Hin|]); exact Hin.
Qed.

(** X12. A manifest whose capture parameters have no mode entry, and which
    has a stimulus section, is not rejected by the gate, whose lookup defaults
    to ["simulated"], and then stops with [NotImplementedError], because the
    second lookup of the mode has no default; only the run directory has been
    created. *)
Theorem missing_mode_not_implemented (w : world) (m : manifest) (outdir : string)
    (cp : capture_parameters) (st : stimulus) :
  m_capture_parameters m = Some cp ->
  m_stimulus m = Some st ->
  mode cp = None ->
  exists msg,
    main w m outdir
    = ([OS.Makedirs (run_dir w m outdir)], Py.Raise (Py.NotImplementedError msg)).
Proof.
  intros Hcp Hst Hmode. unfold main, ensure_dir.
  rewrite Hcp, Hst. cbn [OS.bind OS.emit OS.lift Py.getitem app].
  rewrite Hmode. cbn [Py.get Py.option_eqb String.eqb Ascii.eqb Bool.eqb negb andb].
  eexists. reflexivity.
Qed.

(** X13. A run that stops with a [KeyError] names one of the keys
    [capture_parameters], [stimulus], [freq_hz], [duration_s],
    [samplerate_hz], and it stops before any child process is started and
    before any file is written; a manifest without [capture_parameters] stops
    in this way right after the run directory is created. *)
Theorem missing_key_stops_early (w : world) (m : manifest) (outdir : string) :
  (forall k,
     snd (main w m outdir) = Py.Raise (Py.KeyError k) ->
     required_key k
     /\ filter OS.is_spawn (fst (main w m outdir)) = []
     /\ OS.writes (fst (main w m outdir)) = [])
  /\ (m_capture_parameters m = None ->
      main w m outdir
      = ([OS.Makedirs (run_dir w m outdir)],
         Py.Raise (Py.KeyError "capture_parameters"))).
Proof.
  split.
  - intros k. pose proof (main_outcome w m outdir) as Ho.
    remember (fst (main w m outdir)) as tr. remember (snd (main w m outdir)) as r.
    destruct Ho; intros Hk; try discriminate Hk; injection Hk as <-.
    + split; [unfold required_key; tauto|]. split; reflexivity.
    + split; [unfold required_key; tauto|]. split; reflexivity.
    + split; [assumption|]. split; reflexivity.
  - intros Hcp. unfold main, ensure_dir. rewrite Hcp. reflexivity.
Qed.


(** X15. When a child process that [main] has started exits with a status
    other than 0, the run stops with [CalledProcessError] for that command and
    no file is written. *)
Theorem child_failure_aborts (w : world) (m : manifest) (outdir : string)
    (cmd : list string) :
  In (OS.Spawn cmd) (fst (main w m outdir)) ->
  w_status w cmd <> 0%Z ->
  snd (main w m outdir) = Py.Raise (Py.CalledProcessError cmd)
  /\ OS.writes (fst (main w m outdir)) = [].
Proof.
  pose proof (main_outcome w m outdir) as Ho.
  remember (fst (main w m outdir)) as tr. remember (snd (main w m outdir)) as r.
  destruct Ho; intros Hin Hbad; cbn in Hin;
    repeat (destruct Hin as [Hin|Hin]; [try discriminate Hin|]);
    try (exfalso; exact Hin).
  - injection Hin as <-. split; reflexivity.
  - injection Hin as <-. contradiction.
  - injection Hin as <-. split; reflexivity.
  - injection Hin as <-. contradiction.
  - exfalso. rename H5 into Hcopy.
    destruct (w_exists w (iq_path w m outdir +:+ ".meta.json")); cbn in Hin.
    + destruct Hin as [Hin|Hin].
      * injection Hin as <-. apply Hbad, Hcopy. reflexivity.
      * repeat (destruct Hin as [Hin|Hin]; [discriminate Hin|]). exact Hin.
    + repeat (destruct Hin as [Hin|Hin]; [discriminate Hin|]). exact Hin.
Qed.


(** X17. The generator command line that [main] starts carries, after
    [--seed], the decimal form of a number in [[0, 2**32)], the range that
    [np.random.seed] accepts, whatever the hash of [created_at] is. *)
Theorem spawned_seed_in_range (w : world) (m : manifest) (outdir : string)
    (cmd : list string) :
  In (OS.Spawn cmd) (fst (main w m outdir)) ->
  nth 0 cmd "" = "python3" ->
  nth 1 cmd "" = SIM_GEN
  /\ nth 12 cmd "" = "--seed"
  /\ exists s, (0 <= s < 2 ^ 32)%Z /\ nth 13 cmd "" = pretty s.
Proof.
  assert (Hgen : forall c, generator_command m (iq_path w m outdir) c ->
                  nth 1 c "" = SIM_GEN /\ nth 12 c "" = "--seed"
                  /\ exists s, (0 <= s < 2 ^ 32)%Z /\ nth 13 c "" = pretty s).
  { intros c (ta & cp & d & sr & _ & _ & _ & _ & ->).
    split; [reflexivity|]. split; [reflexivity|].
    exists (Z.land (py_hash (Py.get (created_at m) "")) 4294967295).
    split; [|reflexivity].
    change 4294967295%Z with (Z.ones 32). rewrite Z.land_ones by lia.
    apply Z.mod_pos_bound. lia. }
  pose proof (main_outcome w m outdir) as Ho.
  remember (fst (main w m outdir)) as tr. remember (snd (main w m outdir)) as r.
  destruct Ho; intros Hin Hpy; cbn in Hin;
    repeat (destruct Hin as [Hin|Hin]; [try discriminate Hin|]);
    try (exfalso; exact Hin).
  - injection Hin as <-. apply Hgen. assumption.
  - injection Hin as <-. apply Hgen. assumption.
  - injection Hin as <-. discriminate Hpy.
  - injection Hin as <-. apply Hgen. assumption.
  - destruct (w_exists w _); cbn in Hin.
    + destruct Hin as [Hin|Hin]; [injection Hin as <-; discriminate Hpy|].
      repeat (destruct Hin as [Hin|Hin]; [discriminate Hin|]). destruct Hin.
    + repeat (destruct Hin as [Hin|Hin]; [discriminate Hin|]). destruct Hin.
Qed.

End RunProperties.

(** ** From the manifest to the engine *)

Section Strings.
Import OrchestratorTerms.

Lemma plain_lacks s : plain s = true -> lacks "," s = true /\ lacks ":" s = true.
Proof.
  induction s as [|c r IH]; cbn [plain lacks]; [auto|].
  intros Hp. apply andb_prop in Hp as [Hp Hr]. apply andb_prop in Hp as [Hc1 Hc2].
  destruct (IH Hr) as [-> ->]. rewrite Hc1, Hc2. auto.
Qed.

Lemma split_lacks sep s : lacks sep s = true -> Py.split sep s = [s].
Proof.
  induction s as [|c r IH]; cbn [lacks Py.split]; [reflexivity|].
  intros Hl. apply andb_prop in Hl as [Hc Hr]. apply negb_true_iff in Hc.
  rewrite Hc, (IH Hr). reflexivity.
Qed.

Lemma split_append sep s1 s2 :
  lacks sep s1 = true ->
  Py.split sep (s1 +:+ String sep s2) = s1 :: Py.split sep s2.
Proof.
  induction s1 as [|c r IH]; simpl.
  - intros _. rewrite Ascii.eqb_refl. reflexivity.
  - intros Hl. apply andb_prop in Hl as [Hc Hr]. apply negb_true_iff in Hc.
    rewrite Hc, (IH Hr). reflexivity.
Qed.

Lemma lacks_append sep s1 s2 :
  lacks sep (s1 +:+ s2) = (lacks sep s1 && lacks sep s2)%bool.
Proof.
  induction s1 as [|c r IH]; simpl; [reflexivity|].
  rewrite IH, andb_assoc. reflexivity.
Qed.

Lemma truthy_append_sep s1 c s2 : Py.truthy (s1 +:+ String c s2) = true.
Proof. destruct s1; reflexivity. Qed.

(** Splitting a comma-joined list of fields without commas gives the fields
    back. *)
Lemma split_join (parts : list string) :
  parts <> [] ->
  Forall (fun s => lacks "," s = true) parts ->
  Py.split "," (Py.join "," parts) = parts.
Proof.
  unfold Py.join. induction parts as [|x [|y rest] IH]; intros Hne Hall.
  - congruence.
  - cbn [String.concat]. apply split_lacks. inversion Hall; assumption.
  - inversion Hall as [|? ? Hx Hrest]; subst.
    change (String.concat "," (x :: y :: rest))
      with (x +:+ String "," (String.concat "," (y :: rest))).
    rewrite split_append by exact Hx. f_equal. apply IH; [discriminate|exact Hrest].
Qed.

Lemma truthy_join (x : string) (rest : list string) :
  Py.truthy x = true -> Py.truthy (Py.join "," (x :: rest)) = true.
Proof.
  unfold Py.join. destruct rest as [|y rest]; cbn [String.concat]; [auto|].
  intros _. destruct x; reflexivity.
Qed.

End Strings.

Section Handover.
Import Orchestrator OrchestratorTerms.
Context `{PyRuntime}.

Lemma tone_token_split f t :
  token_reads_back f t ->
  Py.split ":" (tone_token f t)
  = [pretty (int f); str (Py.get (amp t) (Float 1))]
  /\ lacks "," (tone_token f t) = true
  /\ Py.truthy (tone_token f t) = true.
Proof.
  intros [[_ Hf] [_ Ha]].
  apply plain_lacks in Hf as [Hf1 Hf2]. apply plain_lacks in Ha as [Ha1 Ha2].
  unfold tone_token.
  change (":" +:+ str (Py.get (amp t) (Float 1)))
    with (String ":" (str (Py.get (amp t) (Float 1)))).
  split; [|split].
  - rewrite split_append by exact Hf2. rewrite split_lacks by exact Ha2. reflexivity.
  - rewrite lacks_append. cbn [lacks]. rewrite Hf1, Ha1. reflexivity.
  - apply truthy_append_sep.
Qed.

Lemma parse_tone_tokens (tones : list tone_entry) (fs : list num) :
  Forall2 token_reads_back fs tones ->
  exists tl,
    Generator.parse_tone_fields (zip_with tone_token fs tones) = Py.Ok tl
    /\ Forall2 same_tone tl (zip_with tone_read fs tones).
Proof.
  induction 1 as [|f t fs tones Hft _ (tl & IH & Hsame)].
  - exists []. split; [reflexivity|constructor].
  - cbn [zip_with Generator.parse_tone_fields].
    destruct (tone_token_split f t Hft) as (Hsplit & _ & Htr).
    rewrite Htr, Hsplit. cbn [negb nth].
    destruct Hft as [[(qf & Hf & Hqf) _] [(qa & Ha & Hqa) _]].
    unfold Generator.float. rewrite Hf, Ha. cbn [Py.bind].
    rewrite IH. cbn [Py.bind].
    exists ((qf, qa) :: tl). split; [reflexivity|].
    constructor; [split; assumption|exact Hsame].
Qed.



End Handover.

(** ** Worked instances of the further properties *)

Section EngineInstances.
Import Generator EngineTerms.
Existing Instance Lab.runtime.

(** The run [LabCases.short_burst_run] has the two-field burst string
    ["0.1:5"]. *)
Lemma short_burst_ignored_witness :
  exists iq tl,
    synthesize LabCases.short_burst_run Lab.world0
    = ([OS.Print "Burst spec must be burst_start:burst_dur:burst_rate"],
       Py.Ok (iq, tl)).
Proof.
  destruct (accumulate_total (with_burst "" LabCases.short_burst_run) Lab.world0)
    as (tr & acc & tl & Ha).
  - unfold seed_ok. simpl. lia.
  - vm_compute. discriminate.
  - split; [exists [(0, -5 # 10)%Q]; reflexivity|]. intros Ht. discriminate Ht.
  - apply synthesize_eq in Ha. exists (limiter acc), tl.
    refine (short_burst_ignored LabCases.short_burst_run Lab.world0 _ _ _
              eq_refl _ Ha).
    vm_compute. lia.
Defined.

Lemma seed_irrelevant_without_noise_witness :
  synthesize (with_seed 7 Lab.burst_run) Lab.world0
  = synthesize Lab.burst_run Lab.world0.
Proof.
  apply (seed_irrelevant_without_noise Lab.burst_run 7 Lab.world0).
  - apply Qle_refl.
  - unfold seed_ok. simpl. lia.
  - lia.
Defined.




End EngineInstances.

Section OrchestratorInstances.
Import Orchestrator OrchestratorTerms.
Existing Instance Lab.runtime.

Example simulated_command_spawned :
  In (OS.Spawn LabCases.simulated_command)
    (fst (main Lab.locked_world Lab.simulated_manifest "runs")).
Proof. right. right. left. reflexivity. Qed.

Lemma child_only_in_simulated_mode_witness :
  exists cp,
    m_capture_parameters Lab.simulated_manifest = Some cp
    /\ mode cp = Some "simulated".
Proof.
  apply (child_only_in_simulated_mode Lab.locked_world Lab.simulated_manifest
           "runs" LabCases.simulated_command).
  right. right. left. reflexivity.
Defined.

Lemma missing_mode_not_implemented_witness :
  exists msg,
    main Lab.locked_world LabCases.modeless_manifest "runs"
    = ([OS.Makedirs (run_dir Lab.locked_world LabCases.modeless_manifest "runs")],
       Py.Raise (Py.NotImplementedError msg)).
Proof.
  exact (missing_mode_not_implemented Lab.locked_world LabCases.modeless_manifest
           "runs" _ _ eq_refl eq_refl eq_refl).
Defined.

Example bare_manifest_key_error :
  main Lab.locked_world LabCases.bare_manifest "runs"
  = ([OS.Makedirs "runs/run_20250101T000000Z"],
     Py.Raise (Py.KeyError "capture_parameters")).
Proof. reflexivity. Qed.

Lemma child_failure_aborts_witness :
  snd (main LabCases.failing_world Lab.simulated_manifest "runs")
  = Py.Raise (Py.CalledProcessError LabCases.simulated_command)
  /\ OS.writes (fst (main LabCases.failing_world Lab.simulated_manifest "runs")) = [].
Proof.
  apply (child_failure_aborts LabCases.failing_world Lab.simulated_manifest "runs"
           LabCases.simulated_command).
  - right. right. left. reflexivity.
  - discriminate.
Defined.

Lemma spawned_seed_in_range_witness :
  nth 1 LabCases.simulated_command "" = SIM_GEN
  /\ nth 12 LabCases.simulated_command "" = "--seed"
  /\ exists s, (0 <= s < 2 ^ 32)%Z /\ nth 13 LabCases.simulated_command "" = pretty s.
Proof.
  apply (spawned_seed_in_range Lab.locked_world Lab.simulated_manifest "runs"
           LabCases.simulated_command).
  - right. right. left. reflexivity.
  - reflexivity.
Defined.



End OrchestratorInstances.

(** ** The survey logger *)

Section SurveySpectrum.
Import Survey.
Local Open Scope R_scope.

Lemma ln_10_pos : 0 < ln 10.
Proof. rewrite <- ln_1. apply ln_increasing; lra. Qed.

Lemma ln_monotone x y : 0 < x -> x <= y -> ln x <= ln y.
Proof.
  intros Hx [Hlt | ->]; [|lra]. left. apply ln_increasing; assumption.
Qed.

Lemma magnitude_db_bounds f :
  -120 <= magnitude_db f <= -120 + 20 * log10 2.
Proof.
  unfold magnitude_db, log10.
  set (x := Rabs (sin (2 * PI * Q2R f / 100000000))).
  assert (Hx : 0 <= x <= 1).
  { subst x. split; [apply Rabs_pos|]. apply Rabs_le. apply SIN_bound. }
  pose proof ln_10_pos as H10.
  assert (Hlo : 0 <= ln (x + 1)).
  { rewrite <- ln_1. apply ln_monotone; lra. }
  assert (Hhi : ln (x + 1) <= ln 2).
  { apply ln_monotone; lra. }
  assert (Hi : 0 < / ln 10) by (apply Rinv_0_lt_compat; exact H10).
  unfold Rdiv. split.
  - assert (0 <= ln (x + 1) * / ln 10) by (apply Rmult_le_pos; lra). lra.
  - assert (ln (x + 1) * / ln 10 <= ln 2 * / ln 10)
      by (apply Rmult_le_compat_r; lra).
    lra.
Qed.

Lemma np_linspace_length start stop num :
  length (np_linspace start stop num) = Z.to_nat num.
Proof. unfold np_linspace. rewrite length_map. apply length_seqZ. Qed.

Lemma np_linspace_lookup start stop num k :
  (Z.of_nat k < num)%Z ->
  np_linspace start stop num !! k
  = Some (start + inject_Z (Z.of_nat k) * ((stop - start) / inject_Z (num - 1)))%Q.
Proof.
  intros Hk. unfold np_linspace. change (map ?g ?l) with (g <$> l).
  rewrite list_lookup_fmap, lookup_seqZ_lt by lia. reflexivity.
Qed.

(** X20. Every snapshot that the survey tool writes carries the same
    placeholder spectrum, whatever the index and the clocks: 1024 values, each
    between -120 dB and -120 + 20 log10(2) dB, over a frequency grid of 1024
    points that starts at 1 MHz and ends at 6 GHz. *)
Theorem snapshot_spectrum (w : world) (path : string) (p : payload) :
  In (WriteFile path (Snapshot p)) (script w) ->
  magnitudes_db p = spectrum
  /\ length (magnitudes_db p) = 1024%nat
  /\ (forall v, In v (magnitudes_db p) -> -120 <= v <= -120 + 20 * log10 2)
  /\ length freqs = 1024%nat
  /\ (exists f, freqs !! 0%nat = Some f /\ (f == FREQ_START_HZ)%Q)
  /\ (exists f, freqs !! 1023%nat = Some f /\ (f == FREQ_END_HZ)%Q).
Proof.
  intros Hin.
  assert (Hp : magnitudes_db p = spectrum).
  { unfold script, main in Hin. cbn in Hin.
    repeat (destruct Hin as [Hin|Hin];
            [try discriminate Hin; injection Hin as _ <-; reflexivity|]).
    destruct Hin. }
  split; [exact Hp|]. rewrite Hp. split; [|split; [|split; [|split]]].
  - unfold spectrum. rewrite length_map. apply np_linspace_length.
  - intros v Hv. unfold spectrum in Hv. apply in_map_iff in Hv as (f & <- & _).
    apply magnitude_db_bounds.
  - apply np_linspace_length.
  - eexists. split; [apply np_linspace_lookup; reflexivity|]. reflexivity.
  - eexists. split; [apply np_linspace_lookup; reflexivity|]. reflexivity.
Qed.

End SurveySpectrum.

Section SurveyFiles.
Import Survey OrchestratorTerms.

Lemma pretty_N_char_not_underscore d : Ascii.eqb (pretty_N_char d) "_" = false.
Proof. unfold pretty_N_char. repeat case_match; reflexivity. Qed.

Lemma pretty_N_go_lacks (x : N) : forall s,
  lacks "_" s = true -> lacks "_" (pretty_N_go x s) = true.
Proof.
  induction (N.lt_wf_0 x) as [x _ IH]. intros s Hs.
  destruct (decide (0 < x)%N) as [Hx|Hx].
  - rewrite pretty_N_go_step by exact Hx. apply IH.
    + apply N.div_lt; lia.
    + cbn [lacks]. rewrite pretty_N_char_not_underscore, Hs. reflexivity.
  - replace x with 0%N by lia. rewrite pretty_N_go_0. exact Hs.
Qed.

Lemma pretty_index_lacks (i : nat) : lacks "_" (pretty (Z.of_nat i)) = true.
Proof.
  destruct (Z.of_nat i) as [|p|p] eqn:Hi; [reflexivity| |lia].
  change (pretty (Z.pos p)) with (pretty (N.pos p)).
  unfold pretty, pretty_N. destruct (decide (N.pos p = 0%N)); [reflexivity|].
  apply pretty_N_go_lacks. reflexivity.
Qed.

Lemma append_inv_head (p x y : string) : p +:+ x = p +:+ y -> x = y.
Proof.
  induction p as [|c p IH]; simpl; [auto|]. intros [= Heq]. apply IH. exact Heq.
Qed.

(** Two snapshot file names are equal only for equal indices. *)
Lemma snapshot_path_inj i j t t' :
  snapshot_path i t = snapshot_path j t' -> i = j.
Proof.
  unfold snapshot_path. intros Heq.
  apply append_inv_head in Heq.
  apply append_inv_head with (p := "/snapshot_") in Heq.
  change ("_" +:+ ?s) with (String "_" s) in Heq.
  apply (f_equal (Py.split "_")) in Heq.
  rewrite !split_append in Heq by apply pretty_index_lacks.
  injection Heq as Heq _.
  apply (inj pretty) in Heq. lia.
Qed.

Lemma metadata_path_not_snapshot t i t' : metadata_path t <> snapshot_path i t'.
Proof.
  unfold metadata_path, snapshot_path. intros Heq.
  apply append_inv_head in Heq. discriminate Heq.
Qed.

Lemma written_app tr1 tr2 : written (tr1 ++ tr2) = written tr1 ++ written tr2.
Proof. unfold written. apply flat_map_app. Qed.

Lemma slept_app tr1 tr2 : slept (tr1 ++ tr2) = slept tr1 ++ slept tr2.
Proof. unfold slept. apply flat_map_app. Qed.

(** What the loop writes and how long it sleeps, for any list of indices. *)
Lemma snapshot_loop_written w (indices : list nat) : forall c,
  written (fst (snapshot_loop w indices c))
  = imap (fun k i => snapshot_path i (w_time w (snd c + k))) indices
  /\ slept (fst (snapshot_loop w indices c))
     = replicate (length indices) SNAPSHOT_INTERVAL_SEC.
Proof.
  induction indices as [|i rest IH]; intros c; [split; reflexivity|].
  cbn [snapshot_loop]. unfold take_snapshot.
  specialize (IH (S (fst c), S (snd c))).
  destruct (snapshot_loop w rest (S (fst c), S (snd c))) as [tr2 c2].
  cbn [fst snd] in *. destruct IH as [IHw IHs]. split.
  - cbn [app written flat_map]. fold (written tr2). rewrite IHw.
    cbn [imap]. rewrite Nat.add_0_r. f_equal.
    apply imap_ext. intros k j _. cbn. f_equal. f_equal. lia.
  - cbn [app slept flat_map length replicate]. fold (slept tr2). rewrite IHs.
    reflexivity.
Qed.

Lemma imap_paths_elem (g : nat -> Q) (indices : list nat) : forall off p,
  In p (imap (fun k i => snapshot_path i (g (off + k)%nat)) indices) ->
  exists j t, In j indices /\ p = snapshot_path j t.
Proof.
  induction indices as [|i rest IH]; intros off p Hin; [destruct Hin|].
  cbn [imap] in Hin. destruct Hin as [<-|Hin].
  - exists i, (g (off + 0)%nat). split; [left; reflexivity|reflexivity].
  - erewrite imap_ext in Hin.
    + destruct (IH (S off) p Hin) as (j & t & Hj & ->).
      exists j, t. split; [right; exact Hj|reflexivity].
    + intros k j _. cbn. f_equal. f_equal. lia.
Qed.

Lemma imap_paths_nodup (g : nat -> Q) (indices : list nat) : forall off,
  NoDup indices ->
  NoDup (imap (fun k i => snapshot_path i (g (off + k)%nat)) indices).
Proof.
  induction indices as [|i rest IH]; intros off Hnd; [constructor|].
  apply NoDup_cons in Hnd as [Hi Hrest]. cbn [imap]. apply NoDup_cons. split.
  - intros Hin. apply list_elem_of_In in Hin.
    change (fun k : nat => snapshot_path ∘ ?f) with f in Hin.
    erewrite imap_ext in Hin.
    + destruct (imap_paths_elem g rest (S off) _ Hin) as (j & t & Hj & Heq).
      apply snapshot_path_inj in Heq. subst j.
      apply Hi. apply list_elem_of_In. exact Hj.
    + intros k j _. cbn. f_equal. f_equal. lia.
  - specialize (IH (S off) Hrest).
    erewrite imap_ext; [exact IH|].
    intros k j _. cbn. f_equal. f_equal. lia.
Qed.

(** X21. For any clocks and any list of distinct indices, the snapshot loop
    writes one file per index under file names that are pairwise different,
    also when the clock stands still, and sleeps the snapshot interval after
    every snapshot, the last one included.  The script creates the output
    directory first and then writes seven files, the run metadata and six
    snapshots, under seven different names that all start with
    [survey_logs/]. *)
Theorem snapshots_never_collide (w : world) :
  (forall indices c,
     NoDup indices ->
     NoDup (written (fst (snapshot_loop w indices c)))
     /\ length (written (fst (snapshot_loop w indices c))) = length indices
     /\ slept (fst (snapshot_loop w indices c))
        = replicate (length indices) SNAPSHOT_INTERVAL_SEC)
  /\ head (script w) = Some (Makedirs OUTPUT_DIR)
  /\ length (written (script w)) = 7%nat
  /\ NoDup (written (script w))
  /\ Forall (fun p => Py.startswith "survey_logs/" p = true) (written (script w))
  /\ slept (script w) = replicate 6 10%Z.
Proof.
  split.
  { intros indices c Hnd.
    destruct (snapshot_loop_written w indices c) as [Hw Hs].
    rewrite Hw, Hs. split; [|split; [apply length_imap|reflexivity]].
    apply imap_paths_nodup. exact Hnd. }
  split; [reflexivity|].
  assert (Hw : written (script w)
               = metadata_path (w_time w 0%nat)
                 :: written (fst (snapshot_loop w (seq 0 NUM_SNAPSHOTS) (1%nat, 1%nat)))).
  { unfold script, main. cbn [fst snd].
    destruct (snapshot_loop w (seq 0 NUM_SNAPSHOTS) (1%nat, 1%nat)) as [tr c1].
    cbn [fst written flat_map app]. fold (written (tr ++ [Print "[+] Survey complete. Remember: anonymize before publishing."])).
    rewrite written_app. cbn. rewrite app_nil_r. reflexivity. }
  assert (Hs : slept (script w)
               = slept (fst (snapshot_loop w (seq 0 NUM_SNAPSHOTS) (1%nat, 1%nat)))).
  { unfold script, main. cbn [fst snd].
    destruct (snapshot_loop w (seq 0 NUM_SNAPSHOTS) (1%nat, 1%nat)) as [tr c1].
    cbn [fst slept flat_map app]. fold (slept (tr ++ [Print "[+] Survey complete. Remember: anonymize before publishing."])).
    rewrite slept_app. cbn. rewrite app_nil_r. reflexivity. }
  destruct (snapshot_loop_written w (seq 0 NUM_SNAPSHOTS) (1%nat, 1%nat)) as [Hlw Hls].
  rewrite Hw, Hs, Hlw, Hls.
  split; [reflexivity|]. split; [|split; [|reflexivity]].
  - apply NoDup_cons. split.
    + intros Hin. apply list_elem_of_In in Hin.
      destruct (imap_paths_elem (w_time w) _ 1%nat _ Hin) as (j & t & _ & Heq).
      exact (metadata_path_not_snapshot _ _ _ Heq).
    + apply imap_paths_nodup. apply NoDup_seq.
  - repeat constructor.
Qed.

End SurveyFiles.

Section SurveyInstances.
Import Survey.

(** The first snapshot written under the frozen clock. *)
Example frozen_first_snapshot :
  In (WriteFile "survey_logs/snapshot_0_0.json"
        (Snapshot (mkpayload "2025-01-01T00:00:00Z" DEVICE_ID FREQ_START_HZ
                     FREQ_END_HZ NUM_BINS spectrum)))
    (script frozen).
Proof. right. right. left. reflexivity. Qed.

Lemma snapshot_spectrum_witness : length spectrum = 1024%nat.
Proof.
  exact (proj1 (proj2 (snapshot_spectrum frozen "survey_logs/snapshot_0_0.json"
                         (mkpayload "2025-01-01T00:00:00Z" DEVICE_ID FREQ_START_HZ
                            FREQ_END_HZ NUM_BINS spectrum)
                         frozen_first_snapshot))).
Defined.

Example frozen_files :
  written (script frozen)
  = ["survey_logs/run_metadata_0.json"; "survey_logs/snapshot_0_0.json";
     "survey_logs/snapshot_1_0.json"; "survey_logs/snapshot_2_0.json";
     "survey_logs/snapshot_3_0.json"; "survey_logs/snapshot_4_0.json";
     "survey_logs/snapshot_5_0.json"].
Proof. reflexivity. Qed.

End SurveyInstances.

(** ** The copy of the sidecar *)

Section SidecarCopy.
Import Orchestrator OrchestratorTerms.
Context `{PyRuntime}.

Lemma append_assoc (a b c : string) : (a +:+ b) +:+ c = a +:+ (b +:+ c).
Proof.
  induction a as [|x a IH]; [reflexivity|].
  change ((String x a +:+ b) +:+ c) with (String x ((a +:+ b) +:+ c)).
  change (String x a +:+ (b +:+ c)) with (String x (a +:+ (b +:+ c))).
  f_equal. exact IH.
Qed.

Lemma rsplit_slash_lacks (b : string) :
  lacks "/" b = true -> Py.rsplit_slash b = ("", b).
Proof.
  induction b as [|d b IHb]; [reflexivity|].
  cbn [lacks]. intros Hb. apply andb_prop in Hb as [Hd Hb].
  apply negb_true_iff in Hd.
  cbn [Py.rsplit_slash]. rewrite (IHb Hb), Hd. reflexivity.
Qed.

(** A suffix without slash extends the last component of a path. *)
Lemma rsplit_slash_suffix (a b : string) :
  lacks "/" b = true ->
  Py.rsplit_slash (a +:+ b)
  = (fst (Py.rsplit_slash a), snd (Py.rsplit_slash a) +:+ b).
Proof.
  intros Hb. induction a as [|c a IH].
  - change ("" +:+ b) with b. rewrite (rsplit_slash_lacks b Hb). reflexivity.
  - change (String c a +:+ b) with (String c (a +:+ b)).
    cbn [Py.rsplit_slash]. rewrite IH.
    destruct (Py.rsplit_slash a) as [h t]. cbn [fst snd].
    destruct (Ascii.eqb c "/"); [reflexivity|]. destruct h; reflexivity.
Qed.

Lemma rsplit_slash_dir (a : string) :
  Py.rsplit_slash (a +:+ "/") = (a +:+ "/", "").
Proof.
  induction a as [|c a IH]; [reflexivity|].
  change (String c a +:+ "/") with (String c (a +:+ "/")).
  cbn [Py.rsplit_slash]. rewrite IH.
  destruct (Ascii.eqb c "/"); [reflexivity|].
  destruct a; reflexivity.
Qed.

Lemma startswith_slash_lacks b : lacks "/" b = true -> Py.startswith "/" b = false.
Proof.
  destruct b as [|c b]; [reflexivity|]. cbn [lacks]. intros Hb.
  apply andb_prop in Hb as [Hc _]. apply negb_true_iff in Hc.
  unfold Py.startswith. cbn [String.prefix].
  destruct (ascii_dec "/" c) as [<-|_]; [discriminate Hc|reflexivity].
Qed.

(** Joining a directory without trailing slash and a name without slash, and
    taking the base name, gives the name back. *)
Lemma basename_join (d name : string) :
  Py.truthy d = true -> Py.endswith "/" d = false -> lacks "/" name = true ->
  Py.path_join d name = d +:+ "/" +:+ name
  /\ Py.basename (Py.path_join d name) = name.
Proof.
  intros Hd He Hn.
  assert (Hj : Py.path_join d name = d +:+ "/" +:+ name).
  { unfold Py.path_join. rewrite (startswith_slash_lacks name Hn), Hd, He.
    reflexivity. }
  split; [exact Hj|]. rewrite Hj. unfold Py.basename.
  rewrite <- append_assoc, rsplit_slash_suffix by exact Hn.
  rewrite rsplit_slash_dir. reflexivity.
Qed.

(** X22. When the stimulus file name has no slash (the default capture.iq
    included) and the run directory is not empty and has no trailing slash, the
    [cp] command that [main] starts names as its source the sidecar
    [run_dir/<name>.meta.json] and as its target directory the run directory:
    the file that the copy would create, [os.path.join(target,
    os.path.basename(source))], is the source itself. *)
Theorem sidecar_copy_onto_itself (w : world) (m : manifest) (outdir : string)
    (cmd : list string) :
  In (OS.Spawn cmd) (fst (main w m outdir)) ->
  nth 0 cmd "" = "cp" ->
  lacks "/" (Py.get (simulated_iq_file (Py.get (m_stimulus m) empty_stimulus))
               "capture.iq") = true ->
  Py.truthy (run_dir w m outdir) = true ->
  Py.endswith "/" (run_dir w m outdir) = false ->
  cmd = ["cp";
         run_dir w m outdir +:+ "/"
         +:+ (Py.get (simulated_iq_file (Py.get (m_stimulus m) empty_stimulus))
                "capture.iq" +:+ ".meta.json");
         run_dir w m outdir]
  /\ Py.path_join (nth 2 cmd "") (Py.basename (nth 1 cmd "")) = nth 1 cmd "".
Proof.
  intros Hin Hcp Hname Hd He.
  assert (Hcmd : cmd = copy_command w m outdir).
  { assert (Hgen : forall c, generator_command m (iq_path w m outdir) c ->
                    nth 0 c "" = "python3").
    { intros c (ta & cp & d & sr & _ & _ & _ & _ & ->). reflexivity. }
    pose proof (main_outcome w m outdir) as Ho.
    remember (fst (main w m outdir)) as tr. remember (snd (main w m outdir)) as r.
    destruct Ho; cbn in Hin;
      repeat (destruct Hin as [Hin|Hin]; [try discriminate Hin|]);
      try (exfalso; exact Hin).
    - injection Hin as <-. rewrite (Hgen _ ltac:(eassumption)) in Hcp. discriminate Hcp.
    - injection Hin as <-. rewrite (Hgen _ ltac:(eassumption)) in Hcp. discriminate Hcp.
    - injection Hin as <-. reflexivity.
    - injection Hin as <-. rewrite (Hgen _ ltac:(eassumption)) in Hcp. discriminate Hcp.
    - destruct (w_exists w _); cbn in Hin.
      + destruct Hin as [Hin|Hin]; [injection Hin as <-; reflexivity|].
        repeat (destruct Hin as [Hin|Hin]; [discriminate Hin|]). destruct Hin.
      + repeat (destruct Hin as [Hin|Hin]; [discriminate Hin|]). destruct Hin. }
  set (name := Py.get (simulated_iq_file (Py.get (m_stimulus m) empty_stimulus))
                 "capture.iq") in *.
  assert (Hmeta : lacks "/" (name +:+ ".meta.json") = true).
  { rewrite lacks_append, Hname. reflexivity. }
  destruct (basename_join (run_dir w m outdir) name Hd He Hname) as [Hj _].
  destruct (basename_join (run_dir w m outdir) (name +:+ ".meta.json") Hd He Hmeta)
    as [Hj' Hb'].
  assert (Hsrc : iq_path w m outdir +:+ ".meta.json"
                 = run_dir w m outdir +:+ "/" +:+ (name +:+ ".meta.json")).
  { unfold iq_path. fold name. rewrite Hj, !append_assoc. reflexivity. }
  subst cmd. unfold copy_command. rewrite Hsrc. split; [reflexivity|].
  cbn [nth]. rewrite <- Hj', Hb'. reflexivity.
Qed.

End SidecarCopy.

Section SidecarCopyInstance.
Import Orchestrator OrchestratorTerms.
Existing Instance Lab.runtime.

Lemma sidecar_copy_onto_itself_witness :
  Py.path_join "runs/exp1_20250101T000000Z"
    (Py.basename "runs/exp1_20250101T000000Z/capture.iq.meta.json")
  = "runs/exp1_20250101T000000Z/capture.iq.meta.json".
Proof.
  refine (proj2 (sidecar_copy_onto_itself Lab.locked_world Lab.simulated_manifest
                   "runs"
                   ["cp"; "runs/exp1_20250101T000000Z/capture.iq.meta.json";
                    "runs/exp1_20250101T000000Z"] _ eq_refl eq_refl eq_refl eq_refl)).
  right. right. right. left. reflexivity.
Defined.

End SidecarCopyInstance.
